(** * Fitness tracker module: a shallow embedding of [main.py]

    The Python module computes distance, mean speed and spent calories
    for three kinds of workout and prints one report line per record.
    The embedding keeps the shape of the source:

    - Python numbers are [Z] (int) and binary64 [float] (float), with the
      mixed arithmetic of the interpreter written out;
    - dataclass instances live in a store, attributes are looked up in
      the instance dictionary and then along the class hierarchy;
    - printing, allocation and exceptions are threaded by a small
      state-and-error monad.

    String literals hold the UTF-8 bytes of the source's text. *)

From Stdlib Require Import ZArith String Ascii Floats Lia List.
From Stdlib Require Uint63.
From Stdlib Require Import Decimal DecimalString.
From stdpp Require Import base gmap strings list.

Set Warnings "-inexact-float".

Local Open Scope string_scope.
Local Open Scope Z_scope.

(** ** Values, exceptions, results *)

(** The values the records hold: the numbers of the input lists, and
    [None], which the base class's calorie method returns. *)
Inductive value :=
| VNone
| VInt (z : Z)
| VFloat (x : float).

Inductive exn :=
| TypeError
| AttributeError
| ZeroDivisionError
| OverflowError
| ValueError
| KeyError
| SystemError.

Inductive res (A : Type) :=
| Ok (a : A)
| Raise (e : exn).
Arguments Ok {A} a.
Arguments Raise {A} e.

Definition res_bind {A B} (r : res A) (k : A -> res B) : res B :=
  match r with
  | Ok a => k a
  | Raise e => Raise e
  end.

(** What the interpreter takes from the C library and from its own
    float printer: [pow] with the [errno] it leaves, and [repr] of a
    float. *)
Inductive errno := E0 | ERANGE | EDOM.

Class Platform := {
  libm_pow : float -> float -> float * errno;
  float_repr : float -> string
}.

(** ** Python's numeric tower on int and float *)

Module PyNum.

(** [PyLong_AsDouble]: the nearest double, ties to even;
    [OverflowError] when the integer is too large. *)
Definition int_to_float (z : Z) : res float :=
  match binary_normalize prec emax z 0 false with
  | S754_infinity _ => Raise OverflowError
  | sf => Ok (SF2Prim sf)
  end.

(** [long_true_divide]: the correctly rounded quotient of two
    integers. *)
Definition int_true_divide (a b : Z) : res float :=
  if b =? 0 then Raise ZeroDivisionError
  else
    let negate := xorb (a <? 0) (b <? 0) in
    if a =? 0 then Ok (SF2Prim (S754_zero negate))
    else
      let '(q, e, l) :=
        SFdiv_core_binary prec emax (Z.abs a) 0 (Z.abs b) 0 in
      match binary_round_aux prec emax negate q e l with
      | S754_infinity _ => Raise OverflowError
      | sf => Ok (SF2Prim sf)
      end.

(** [float_div]: a zero divisor (of either sign) is an error. *)
Definition float_div (x y : float) : res float :=
  if PrimFloat.eqb y PrimFloat.zero then Raise ZeroDivisionError
  else Ok (PrimFloat.div x y).

Definition mul (v w : value) : res value :=
  match v, w with
  | VInt a, VInt b => Ok (VInt (a * b))
  | VFloat x, VFloat y => Ok (VFloat (PrimFloat.mul x y))
  | VInt a, VFloat y =>
      res_bind (int_to_float a) (fun x => Ok (VFloat (PrimFloat.mul x y)))
  | VFloat x, VInt b =>
      res_bind (int_to_float b) (fun y => Ok (VFloat (PrimFloat.mul x y)))
  | _, _ => Raise TypeError
  end.

Definition add (v w : value) : res value :=
  match v, w with
  | VInt a, VInt b => Ok (VInt (a + b))
  | VFloat x, VFloat y => Ok (VFloat (PrimFloat.add x y))
  | VInt a, VFloat y =>
      res_bind (int_to_float a) (fun x => Ok (VFloat (PrimFloat.add x y)))
  | VFloat x, VInt b =>
      res_bind (int_to_float b) (fun y => Ok (VFloat (PrimFloat.add x y)))
  | _, _ => Raise TypeError
  end.

Definition truediv (v w : value) : res value :=
  match v, w with
  | VInt a, VInt b =>
      res_bind (int_true_divide a b) (fun q => Ok (VFloat q))
  | VFloat x, VFloat y =>
      res_bind (float_div x y) (fun q => Ok (VFloat q))
  | VInt a, VFloat y =>
      res_bind (int_to_float a) (fun x =>
      res_bind (float_div x y) (fun q => Ok (VFloat q)))
  | VFloat x, VInt b =>
      res_bind (int_to_float b) (fun y =>
      res_bind (float_div x y) (fun q => Ok (VFloat q)))
  | _, _ => Raise TypeError
  end.

(** [float_pow] at the exponent 2.0: the special cases the
    interpreter handles itself, then [pow] on the absolute value with
    the [errno] adjustment of [Py_ADJUST_ERANGE1]. *)
Definition float_pow2 `{Platform} (x : float) : res float :=
  if PrimFloat.is_nan x then Ok x
  else if PrimFloat.is_infinity x then Ok PrimFloat.infinity
  else if PrimFloat.eqb x PrimFloat.zero then Ok PrimFloat.zero
  else
    let iv := PrimFloat.abs x in
    if PrimFloat.eqb iv PrimFloat.one then Ok PrimFloat.one
    else
      let '(ix, err) := libm_pow iv PrimFloat.two in
      let err' :=
        match err with
        | E0 => if PrimFloat.is_infinity ix then ERANGE else E0
        | ERANGE => if PrimFloat.eqb ix PrimFloat.zero then E0 else ERANGE
        | EDOM => EDOM
        end in
      match err' with
      | E0 => Ok ix
      | ERANGE => Raise OverflowError
      | EDOM => Raise ValueError
      end.

(** [v ** 2] *)
Definition pow2 `{Platform} (v : value) : res value :=
  match v with
  | VInt a => Ok (VInt (a * a))
  | VFloat x => res_bind (float_pow2 x) (fun y => Ok (VFloat y))
  | VNone => Raise TypeError
  end.

End PyNum.

(** ** Rendering: [format(x, '.3f')] and the fragment of [str.format]
    the report template uses *)

Module PyFormat.

(** [n / d] rounded to the nearest integer, ties to even
    ([0 <= n], [0 < d]). *)
Definition round_half_even (n d : Z) : Z :=
  let q := n / d in
  match (2 * (n mod d)) ?= d with
  | Lt => q
  | Gt => q + 1
  | Eq => if Z.even q then q else q + 1
  end.

(** [m * 2^e * 1000], rounded to an integer: the thousandths that
    three fractional digits show. *)
Definition thousandths (m : positive) (e : Z) : Z :=
  match e with
  | Zneg p => round_half_even (Zpos m * 1000) (2 ^ Zpos p)
  | _ => Zpos m * 1000 * 2 ^ e
  end.

Definition digit (d : Z) : ascii := ascii_of_nat (48 + Z.to_nat d).

Definition decimal (n : Z) : string :=
  NilZero.string_of_uint (N.to_uint (Z.to_N n)).

Definition int_str (z : Z) : string :=
  if z <? 0 then "-" +:+ decimal (- z) else decimal z.

(** Sign, integer part, point, exactly three digits. *)
Definition fixed3 (neg : bool) (n : Z) : string :=
  (if neg then "-" else EmptyString) +:+ decimal (n / 1000) +:+ "."
    +:+ String (digit (n / 100 mod 10))
         (String (digit (n / 10 mod 10))
           (String (digit (n mod 10)) EmptyString)).

(** [format(x, '.3f')] for a float: correctly rounded, never in
    exponent form; infinities and NaN have their names. *)
Definition float_f3 (x : float) : string :=
  match Prim2SF x with
  | S754_nan => "nan"
  | S754_infinity s => if s then "-inf" else "inf"
  | S754_zero s => fixed3 s 0
  | S754_finite s m e => fixed3 s (thousandths m e)
  end.

(** An argument of [format]: the class name is a [str], the metrics
    are numbers or [None]. *)
Inductive arg :=
| AStr (s : string)
| AVal (v : value).

(** [format(a, spec)] for the two specs of the template. Other
    non-empty specs are outside the fragment and reported as
    [ValueError], except on [None], which rejects every one of
    them. *)
Definition format_value `{Platform} (spec : string) (a : arg) : res string :=
  if String.eqb spec EmptyString then
    match a with
    | AStr s => Ok s
    | AVal VNone => Ok "None"
    | AVal (VInt z) => Ok (int_str z)
    | AVal (VFloat x) => Ok (float_repr x)
    end
  else
    match a with
    | AVal VNone => Raise TypeError
    | AStr _ => Raise ValueError
    | AVal (VInt z) =>
        if String.eqb spec ".3f"
        then res_bind (PyNum.int_to_float z) (fun x => Ok (float_f3 x))
        else Raise ValueError
    | AVal (VFloat x) =>
        if String.eqb spec ".3f" then Ok (float_f3 x) else Raise ValueError
    end.

Inductive segment :=
| Lit (s : string)
| Field (name spec : string).

Inductive mode :=
| InText (acc : string)
| InName (acc : string)
| InSpec (name acc : string).

Definition snoc (s : string) (c : ascii) : string :=
  s +:+ String c EmptyString.

Definition cons_seg (x : segment) (r : res (list segment)) :=
  res_bind r (fun l => Ok (x :: l)).

(** The template is split into literal text and replacement fields
    [{name}] or [{name:spec}]; doubled braces are literal braces.
    Conversions, attribute access and nested fields are not part of
    the fragment. *)
Fixpoint parse (m : mode) (s : string) : res (list segment) :=
  match s with
  | EmptyString =>
      match m with
      | InText acc => Ok [Lit acc]
      | _ => Raise ValueError
      end
  | String c s' =>
      match m with
      | InText acc =>
          if Ascii.eqb c "{" then
            match s' with
            | String "{" s'' => parse (InText (snoc acc "{")) s''
            | _ => cons_seg (Lit acc) (parse (InName EmptyString) s')
            end
          else if Ascii.eqb c "}" then
            match s' with
            | String "}" s'' => parse (InText (snoc acc "}")) s''
            | _ => Raise ValueError
            end
          else parse (InText (snoc acc c)) s'
      | InName acc =>
          if Ascii.eqb c "}" then
            cons_seg (Field acc EmptyString) (parse (InText EmptyString) s')
          else if Ascii.eqb c ":" then parse (InSpec acc EmptyString) s'
          else if Ascii.eqb c "{" then Raise ValueError
          else parse (InName (snoc acc c)) s'
      | InSpec name acc =>
          if Ascii.eqb c "}" then
            cons_seg (Field name acc) (parse (InText EmptyString) s')
          else if Ascii.eqb c "{" then Raise ValueError
          else parse (InSpec name (snoc acc c)) s'
      end
  end.

Fixpoint render `{Platform} (kwargs : gmap string arg) (l : list segment)
  : res string :=
  match l with
  | [] => Ok EmptyString
  | Lit s :: l' => res_bind (render kwargs l') (fun r => Ok (s +:+ r))
  | Field name spec :: l' =>
      match kwargs !! name with
      | None => Raise KeyError
      | Some a =>
          res_bind (format_value spec a) (fun t =>
          res_bind (render kwargs l') (fun r => Ok (t +:+ r)))
      end
  end.

(** [str.format] with keyword arguments *)
Definition format `{Platform} (template : string) (kwargs : gmap string arg)
  : res string :=
  res_bind (parse (InText EmptyString) template) (render kwargs).

End PyFormat.

(** ** The store, and the monad of state and exceptions *)

Inductive pyclass := Training | Running | SportsWalking | Swimming.

(** An instance: its class and its [__dict__]. *)
Record instance := {
  inst_class : pyclass;
  inst_dict : gmap string value
}.

(** References are positions in the store; [None] is Python's [None]. *)
Definition loc := nat.

Record state := {
  heap : list instance;
  stdout : list string
}.

Definition M (A : Type) : Type := state -> res A * state.

Definition ret {A} (a : A) : M A := fun s => (Ok a, s).

Definition raise {A} (e : exn) : M A := fun s => (Raise e, s).

Definition bind {A B} (m : M A) (k : A -> M B) : M B :=
  fun s =>
    match m s with
    | (Ok a, s') => k a s'
    | (Raise e, s') => (Raise e, s')
    end.

Definition lift {A} (r : res A) : M A := fun s => (r, s).

Notation "x <- m ;; k" := (bind m (fun x => k))
  (at level 20, m at level 99, k at level 200, only parsing).

(** [print(line)] *)
Definition print (line : string) : M unit :=
  fun s => (Ok tt, {| heap := heap s; stdout := stdout s ++ [line] |}).

Definition alloc (o : instance) : M (option loc) :=
  fun s =>
    (Ok (Some (length (heap s))),
     {| heap := heap s ++ [o]; stdout := stdout s |}).

(** ** The classes *)

Definition class_name (c : pyclass) : string :=
  match c with
  | Training => "Training"
  | Running => "Running"
  | SportsWalking => "SportsWalking"
  | Swimming => "Swimming"
  end.

(** Method resolution order: the class, then [Training]. *)
Definition mro (c : pyclass) : list pyclass :=
  match c with
  | Training => [Training]
  | _ => [c; Training]
  end.

(** The [ClassVar] constants of each class body. *)
Definition class_dict (c : pyclass) : gmap string value :=
  match c with
  | Training =>
      {[ "LEN_STEP" := VFloat 0.65;
         "M_IN_KM" := VInt 1000;
         "MIN_IN_HOUR" := VInt 60 ]}
  | Running =>
      {[ "CALORIES_MEAN_SPEED_MULTIPLIER" := VInt 18;
         "CALORIES_MEAN_SPEED_SHIFT" := VFloat 1.79;
         "MIN" := VInt 60 ]}
  | SportsWalking =>
      {[ "WEIGHT_MULTIPLIER" := VFloat 0.035;
         "AVG_MULTIPLIER" := VFloat 0.029;
         "CONVERSION_ms" := VFloat 0.278;
         "CONVERSION_m" := VInt 100;
         "MIN" := VInt 60 ]}
  | Swimming =>
      {[ "LEN_STEP" := VFloat 1.38;
         "OFFSET_AVG_SPEED" := VFloat 1.1;
         "SPEED_MULTIPLIER" := VInt 2 ]}
  end.

(** The dataclass fields each class body declares. *)
Definition own_fields (c : pyclass) : list string :=
  match c with
  | Training => ["action"; "duration"; "weight"]
  | Running => []
  | SportsWalking => ["height"]
  | Swimming => ["length_pool"; "count_pool"]
  end.

(** The fields of the generated [__init__], base class first. *)
Definition fields (c : pyclass) : list string :=
  flat_map own_fields (rev (mro c)).

(** The methods each class body defines. *)
Definition class_methods (c : pyclass) : list string :=
  match c with
  | Training =>
      ["get_distance"; "get_mean_speed"; "get_spent_calories";
       "show_training_info"]
  | Running => ["get_spent_calories"]
  | SportsWalking => ["get_spent_calories"]
  | Swimming => ["get_distance"; "get_spent_calories"; "get_mean_speed"]
  end.

Fixpoint lookup_mro (l : list pyclass) (name : string) : option value :=
  match l with
  | [] => None
  | c :: l' =>
      match class_dict c !! name with
      | Some v => Some v
      | None => lookup_mro l' name
      end
  end.

(** The class whose body provides method [name] for an instance of a
    class with linearisation [l]. *)
Fixpoint resolve (l : list pyclass) (name : string) : option pyclass :=
  match l with
  | [] => None
  | c :: l' =>
      if bool_decide (name ∈ class_methods c) then Some c
      else resolve l' name
  end.

(** [self]: the instance behind a reference. [None] has no attribute
    the program asks for; a reference outside the store does not occur
    in a run and is reported as [SystemError]. *)
Definition deref (self : option loc) : M instance :=
  fun s =>
    match self with
    | None => (Raise AttributeError, s)
    | Some l =>
        match heap s !! l with
        | Some o => (Ok o, s)
        | None => (Raise SystemError, s)
        end
    end.

(** A data attribute of an instance: the instance dictionary, then the
    classes in resolution order. *)
Definition attr (o : instance) (name : string) : option value :=
  match inst_dict o !! name with
  | Some v => Some v
  | None => lookup_mro (mro (inst_class o)) name
  end.

(** [self.name] *)
Definition getattr (self : option loc) (name : string) : M value :=
  o <- deref self ;;
  match attr o name with
  | Some v => ret v
  | None => raise AttributeError
  end.

(** [type(self).__name__] *)
Definition type_name (self : option loc) : M string :=
  match self with
  | None => ret "NoneType"
  | Some _ => o <- deref self ;; ret (class_name (inst_class o))
  end.

(** Calling a class on the unpacked list: the generated [__init__] binds the arguments to the
    fields by position and rejects any other number of them. *)
Definition mk_instance (c : pyclass) (args : list value) : instance :=
  {| inst_class := c; inst_dict := list_to_map (zip (fields c) args) |}.

Definition new (c : pyclass) (args : list value) : M (option loc) :=
  if bool_decide (length args = length (fields c)) then
    alloc (mk_instance c args)
  else raise TypeError.

(** ** class InfoMessage *)

Record InfoMessage := {
  training_type : string;
  duration : value;
  distance : value;
  speed : value;
  calories : value
}.

Definition InfoMessage_MESSAGE : string :=
  "Тип тренировки: {training_type}; " +:+
  "Длительность: {duration:.3f} ч.; " +:+
  "Дистанция: {distance:.3f} км; " +:+
  "Ср. скорость: {speed:.3f} км/ч; " +:+
  "Потрачено ккал: {calories:.3f}.".

(** [asdict(self)] *)
Definition asdict (self : InfoMessage) : gmap string PyFormat.arg :=
  {[ "training_type" := PyFormat.AStr (training_type self);
     "duration" := PyFormat.AVal (duration self);
     "distance" := PyFormat.AVal (distance self);
     "speed" := PyFormat.AVal (speed self);
     "calories" := PyFormat.AVal (calories self) ]}.

Definition InfoMessage_get_message `{Platform} (self : InfoMessage) : M string :=
  lift (PyFormat.format InfoMessage_MESSAGE (asdict self)).

(** ** class Training and its subclasses *)

Section Methods.
Context `{Platform}.

Definition Training_get_distance (self : option loc) : M value :=
  action <- getattr self "action" ;;
  len_step <- getattr self "LEN_STEP" ;;
  steps <- lift (PyNum.mul action len_step) ;;
  m_in_km <- getattr self "M_IN_KM" ;;
  lift (PyNum.truediv steps m_in_km).

Definition Training_get_mean_speed (self : option loc) : M value :=
  dist <- Training_get_distance self ;;
  dur <- getattr self "duration" ;;
  lift (PyNum.truediv dist dur).

(** The [def] sits in a [try] block whose handler never runs: defining
    a function raises nothing. The body is [pass], so a call returns
    [None]. *)
Definition Training_get_spent_calories (self : option loc) : M value :=
  ret VNone.

Definition Running_get_spent_calories (self : option loc) : M value :=
  mult <- getattr self "CALORIES_MEAN_SPEED_MULTIPLIER" ;;
  v <- Training_get_mean_speed self ;;
  mv <- lift (PyNum.mul mult v) ;;
  shift <- getattr self "CALORIES_MEAN_SPEED_SHIFT" ;;
  sum <- lift (PyNum.add mv shift) ;;
  weight <- getattr self "weight" ;;
  sw <- lift (PyNum.mul sum weight) ;;
  m_in_km <- getattr self "M_IN_KM" ;;
  q <- lift (PyNum.truediv sw m_in_km) ;;
  dur <- getattr self "duration" ;;
  mins <- getattr self "MIN" ;;
  dm <- lift (PyNum.mul dur mins) ;;
  lift (PyNum.mul q dm).

Definition SportsWalking_get_spent_calories (self : option loc) : M value :=
  wmult <- getattr self "WEIGHT_MULTIPLIER" ;;
  weight <- getattr self "weight" ;;
  t1 <- lift (PyNum.mul wmult weight) ;;
  v <- Training_get_mean_speed self ;;
  conv_ms <- getattr self "CONVERSION_ms" ;;
  ms <- lift (PyNum.mul v conv_ms) ;;
  sq <- lift (PyNum.pow2 ms) ;;
  height <- getattr self "height" ;;
  conv_m <- getattr self "CONVERSION_m" ;;
  hm <- lift (PyNum.truediv height conv_m) ;;
  q <- lift (PyNum.truediv sq hm) ;;
  avg <- getattr self "AVG_MULTIPLIER" ;;
  qa <- lift (PyNum.mul q avg) ;;
  weight' <- getattr self "weight" ;;
  t2 <- lift (PyNum.mul qa weight') ;;
  sum <- lift (PyNum.add t1 t2) ;;
  dur <- getattr self "duration" ;;
  mins <- getattr self "MIN" ;;
  dm <- lift (PyNum.mul dur mins) ;;
  lift (PyNum.mul sum dm).

Definition Swimming_get_distance (self : option loc) : M value :=
  action <- getattr self "action" ;;
  len_step <- getattr self "LEN_STEP" ;;
  strokes <- lift (PyNum.mul action len_step) ;;
  m_in_km <- getattr self "M_IN_KM" ;;
  lift (PyNum.truediv strokes m_in_km).

Definition Swimming_get_mean_speed (self : option loc) : M value :=
  length_pool <- getattr self "length_pool" ;;
  count_pool <- getattr self "count_pool" ;;
  total <- lift (PyNum.mul length_pool count_pool) ;;
  m_in_km <- getattr self "M_IN_KM" ;;
  km <- lift (PyNum.truediv total m_in_km) ;;
  dur <- getattr self "duration" ;;
  lift (PyNum.truediv km dur).

Definition Swimming_get_spent_calories (self : option loc) : M value :=
  v <- Swimming_get_mean_speed self ;;
  offset <- getattr self "OFFSET_AVG_SPEED" ;;
  sum <- lift (PyNum.add v offset) ;;
  mult <- getattr self "SPEED_MULTIPLIER" ;;
  sm <- lift (PyNum.mul sum mult) ;;
  weight <- getattr self "weight" ;;
  smw <- lift (PyNum.mul sm weight) ;;
  dur <- getattr self "duration" ;;
  lift (PyNum.mul smw dur).

(** The body a class provides for a method name. *)
Definition method_body (c : pyclass) (name : string)
  : option (option loc -> M value) :=
  match c with
  | Training =>
      if String.eqb name "get_distance" then Some Training_get_distance
      else if String.eqb name "get_mean_speed" then Some Training_get_mean_speed
      else if String.eqb name "get_spent_calories"
           then Some Training_get_spent_calories
      else None
  | Running =>
      if String.eqb name "get_spent_calories"
      then Some Running_get_spent_calories else None
  | SportsWalking =>
      if String.eqb name "get_spent_calories"
      then Some SportsWalking_get_spent_calories else None
  | Swimming =>
      if String.eqb name "get_distance" then Some Swimming_get_distance
      else if String.eqb name "get_spent_calories"
           then Some Swimming_get_spent_calories
      else if String.eqb name "get_mean_speed" then Some Swimming_get_mean_speed
      else None
  end.

(** [self.name()]: the method is found along the resolution order of
    the instance's class and called on [self]. *)
Definition call_method (self : option loc) (name : string) : M value :=
  o <- deref self ;;
  match resolve (mro (inst_class o)) name with
  | Some c =>
      match method_body c name with
      | Some f => f self
      | None => raise AttributeError
      end
  | None => raise AttributeError
  end.

Definition Training_show_training_info (self : option loc) : M InfoMessage :=
  name <- type_name self ;;
  dur <- getattr self "duration" ;;
  dist <- call_method self "get_distance" ;;
  v <- call_method self "get_mean_speed" ;;
  cal <- call_method self "get_spent_calories" ;;
  ret {| training_type := name; duration := dur; distance := dist;
         speed := v; calories := cal |}.

(** ** The module's functions *)

Definition dict_training : gmap string pyclass :=
  {[ "SWM" := Swimming; "RUN" := Running; "WLK" := SportsWalking ]}.

(** Without a [return] in the [else] branch the function returns
    [None] after printing. *)
Definition read_package (workout_type : string) (data : list value)
  : M (option loc) :=
  match dict_training !! workout_type with
  | Some c => new c data
  | None =>
      u <- print "Тренировка не найдена!" ;;
      ret None
  end.

Definition main (training : option loc) : M unit :=
  info <- Training_show_training_info training ;;
  msg <- InfoMessage_get_message info ;;
  print msg.

(** The sample records of the [__main__] block. *)
Definition swm_data : list value :=
  [VInt 720; VInt 1; VInt 80; VInt 25; VInt 40].
Definition run_data : list value := [VInt 15000; VInt 1; VInt 75].
Definition wlk_data : list value :=
  [VInt 9000; VInt 1; VInt 75; VInt 180].

Definition packages : list (string * list value) :=
  [ ("SWM", swm_data); ("RUN", run_data); ("WLK", wlk_data) ].

(** The loop of the [__main__] block over a list of packages. *)
Fixpoint run (pkgs : list (string * list value)) : M unit :=
  match pkgs with
  | [] => ret tt
  | (workout_type, data) :: rest =>
      training <- read_package workout_type data ;;
      u <- main training ;;
      run rest
  end.

End Methods.

Definition initial : state := {| heap := []; stdout := [] |}.

(** ** Definitions used to state the properties *)

(** [m] run from [s] gives [r] and leaves the state as it was. *)
Definition evals {A} (s : state) (m : M A) (r : res A) : Prop :=
  m s = (r, s).

(** [m] leaves every state as it was, whatever it returns or raises. *)
Definition reads {A} (m : M A) : Prop :=
  forall s, snd (m s) = s.

(** The state after a new instance [o] has been stored. *)
Definition stored (s : state) (o : instance) : state :=
  {| heap := heap s ++ [o]; stdout := stdout s |}.

(** The state after [line] has been printed. *)
Definition printed (s : state) (line : string) : state :=
  {| heap := heap s; stdout := stdout s ++ [line] |}.

(** The distance as the specification writes it:
    [action * len_step / 1000], in Python's arithmetic. *)
Definition spec_distance (action : value) (len_step : float) : res value :=
  res_bind (PyNum.mul action (VFloat len_step))
           (fun m => PyNum.truediv m (VInt 1000)).

(** The swimming speed as the specification writes it:
    [(pool_length * pool_laps) / 1000 / duration]. *)
Definition spec_swimming_speed (length_pool count_pool dur : value)
  : res value :=
  res_bind (PyNum.mul length_pool count_pool) (fun total =>
  res_bind (PyNum.truediv total (VInt 1000)) (fun km =>
  PyNum.truediv km dur)).

(** The float a metric is rendered from, when it is a number. *)
Definition metric_float (v : value) : option float :=
  match v with
  | VFloat x => Some x
  | VInt z =>
      match PyNum.int_to_float z with
      | Ok x => Some x
      | Raise _ => None
      end
  | VNone => None
  end.

(** What [.3f] shows for a metric that is a number. *)
Definition metric_f3 (v : value) : string :=
  match metric_float v with
  | Some x => PyFormat.float_f3 x
  | None => EmptyString
  end.

Definition is_digit (c : ascii) : bool :=
  ((48 <=? nat_of_ascii c)%nat && (nat_of_ascii c <=? 57)%nat)%bool.

Fixpoint all_digits (s : string) : bool :=
  match s with
  | EmptyString => true
  | String c s' => (is_digit c && all_digits s')%bool
  end.

(** Digits (at least one once [seen] holds), a point, and exactly
    three digits up to the end of the string. *)
Fixpoint is_unsigned_fixed3 (seen : bool) (s : string) : bool :=
  match s with
  | EmptyString => false
  | String c s' =>
      if Ascii.eqb c "."
      then (seen && (String.length s' =? 3)%nat && all_digits s')%bool
      else (is_digit c && is_unsigned_fixed3 true s')%bool
  end.

(** Fixed-point notation with exactly three fractional digits: an
    optional sign, the integer digits, a point, three digits; no
    exponent. *)
Definition is_fixed3 (s : string) : bool :=
  match s with
  | EmptyString => false
  | String c s' =>
      if Ascii.eqb c "-" then is_unsigned_fixed3 false s'
      else is_unsigned_fixed3 false s
  end.

(** What a rendered metric looks like: a finite number is in
    fixed-point notation with three fractional digits, an infinity is
    [inf] or [-inf] by its sign, a NaN is [nan]. *)
Definition metric_shape (v : value) : bool :=
  match metric_float v with
  | None => false
  | Some x =>
      if PrimFloat.is_nan x then String.eqb (metric_f3 v) "nan"
      else if PrimFloat.is_infinity x then
        String.eqb (metric_f3 v)
          (if PrimFloat.ltb x PrimFloat.zero then "-inf" else "inf")
      else is_fixed3 (metric_f3 v)
  end.

(** The report line with the labels of the source and the rendered
    metrics in their places. *)
Definition report_line (type_label d dist v cal : string) : string :=
  "Тип тренировки: " +:+ type_label +:+ "; Длительность: " +:+ d +:+
  " ч.; Дистанция: " +:+ dist +:+ " км; Ср. скорость: " +:+ v +:+
  " км/ч; Потрачено ккал: " +:+ cal +:+ ".".

(** The line the specification quotes, with English labels. *)
Definition spec_report_line (type_label d dist v cal : string) : string :=
  "Training type: " +:+ type_label +:+ "; Duration: " +:+ d +:+
  " h; Distance: " +:+ dist +:+ " km; Avg speed: " +:+ v +:+
  " km/h; Calories burned: " +:+ cal +:+ ".".

(** The diagnostic for an unknown workout code. *)
Definition not_found_line : string := "Тренировка не найдена!".

(** A platform to run examples on: [pow] is exact rounding of the
    square, the one use the program makes of it. *)
Definition sample_platform : Platform :=
  {| libm_pow := fun x _ => (PrimFloat.mul x x, E0);
     float_repr := fun _ => EmptyString |}.

(** The calories and the distance of the sample records as the
    specification writes them, evaluated in double arithmetic. *)
Definition run_calories : float :=
  ((18 * 9.75 + 1.79) * 75 / 1000 * 60)%float.
Definition swm_distance : float := (720 * 1.38 / 1000)%float.

(** A message with a very large metric, a negative infinity and a
    NaN; and a record whose calories overflow to infinity. *)
Definition sample_message : InfoMessage :=
  {| training_type := "Running"; duration := VInt 1;
     distance := VFloat 1e300; speed := VFloat PrimFloat.neg_infinity;
     calories := VFloat PrimFloat.nan |}.

Definition heavy_run_data : list value :=
  [VInt 15000; VInt 1; VFloat 1e308].

(** The reference [new] returns in state [s]. *)
Definition fresh_ref (s : state) : option loc := Some (length (heap s)).


(** ** Further definitions: the formulas of the method bodies *)

(** The store holds, at [l], a record of class [c] built from [data]. *)
Definition record_at (s : state) (l : loc) (c : pyclass)
    (data : list value) : Prop :=
  heap s !! l = Some (mk_instance c data).

(** A store with one record. *)
Definition one_record (c : pyclass) (data : list value) : state :=
  stored initial (mk_instance c data).

(** [Training.get_mean_speed]: [action * 0.65 / 1000 / duration]. *)
Definition mean_speed_expr (action dur : value) : res value :=
  res_bind (PyNum.mul action (VFloat 0.65)) (fun steps =>
  res_bind (PyNum.truediv steps (VInt 1000)) (fun dist =>
  PyNum.truediv dist dur)).

(** [Running.get_spent_calories]:
    [(18 * mean_speed + 1.79) * weight / 1000 * (duration * 60)]. *)
Definition running_calories_expr (action dur weight : value) : res value :=
  res_bind (mean_speed_expr action dur) (fun v =>
  res_bind (PyNum.mul (VInt 18) v) (fun mv =>
  res_bind (PyNum.add mv (VFloat 1.79)) (fun sum =>
  res_bind (PyNum.mul sum weight) (fun sw =>
  res_bind (PyNum.truediv sw (VInt 1000)) (fun q =>
  res_bind (PyNum.mul dur (VInt 60)) (fun dm =>
  PyNum.mul q dm)))))).

(** [SportsWalking.get_spent_calories]:
    [(0.035 * weight + (mean_speed * 0.278)**2 / (height / 100)
      * 0.029 * weight) * (duration * 60)]. *)
Definition walking_calories_expr `{Platform}
    (action dur weight height : value) : res value :=
  res_bind (PyNum.mul (VFloat 0.035) weight) (fun t1 =>
  res_bind (mean_speed_expr action dur) (fun v =>
  res_bind (PyNum.mul v (VFloat 0.278)) (fun ms =>
  res_bind (PyNum.pow2 ms) (fun sq =>
  res_bind (PyNum.truediv height (VInt 100)) (fun hm =>
  res_bind (PyNum.truediv sq hm) (fun q =>
  res_bind (PyNum.mul q (VFloat 0.029)) (fun qa =>
  res_bind (PyNum.mul qa weight) (fun t2 =>
  res_bind (PyNum.add t1 t2) (fun sum =>
  res_bind (PyNum.mul dur (VInt 60)) (fun dm =>
  PyNum.mul sum dm)))))))))).

(** [Swimming.get_spent_calories]:
    [(mean_speed + 1.1) * 2 * weight * duration], on the pool speed. *)
Definition swimming_calories_expr
    (dur weight length_pool count_pool : value) : res value :=
  res_bind (spec_swimming_speed length_pool count_pool dur) (fun v =>
  res_bind (PyNum.add v (VFloat 1.1)) (fun sum =>
  res_bind (PyNum.mul sum (VInt 2)) (fun sm =>
  res_bind (PyNum.mul sm weight) (fun smw =>
  PyNum.mul smw dur)))).

(** The number zero, as an int or as a float of either sign. *)
Definition zero_number (v : value) : bool :=
  match v with
  | VInt z => z =? 0
  | VFloat x => PrimFloat.eqb x PrimFloat.zero
  | VNone => false
  end.

Definition is_float (v : value) : bool :=
  match v with
  | VFloat _ => true
  | _ => false
  end.

(** A metric [.3f] accepts: a float, or an int that converts to one. *)
Definition renderable (v : value) : bool :=
  match metric_float v with
  | Some _ => true
  | None => false
  end.

(** A result that is a value, not an exception. *)
Definition succeeds {A} (r : res A) : bool :=
  match r with
  | Ok _ => true
  | Raise _ => false
  end.

(** The record [read_package] builds for a package with a known code. *)
Definition built_from (p : string * list value) (o : instance) : Prop :=
  exists c, dict_training !! p.1 = Some c /\ o = mk_instance c p.2.

(** A report line labelled with the class of a package's code. *)
Definition reports (p : string * list value) (line : string) : Prop :=
  exists c d dist v cal,
    dict_training !! p.1 = Some c /\
    line = report_line (class_name c) d dist v cal.

(** A float value that is zero, finite or infinite with the sign bit
    clear. *)
Definition nonneg_sf (x : spec_float) : bool :=
  match x with
  | S754_zero false => true
  | S754_finite false _ _ => true
  | S754_infinity false => true
  | _ => false
  end.

(** The first integer that is too large for a float: halfway between
    the largest double and [2 ^ 1024], where rounding to even goes up. *)
Definition float_limit : Z := 2 ^ 1024 - 2 ^ 970.

(** The state of a right shift of [M] by [n] bits: the quotient, the
    round bit, and the sticky bit that records whether anything below
    the round bit was set. *)
Definition shr_inv (M n : Z) (R : shr_record) : Prop :=
  exists rest : Z,
    0 <= rest < 2 ^ n /\
    (shr_s R = true <-> 0 < rest) /\
    2 * M = shr_m R * 2 ^ (n + 1) + Z.b2z (shr_r R) * 2 ^ n + rest /\
    0 <= shr_m R.

(** A step count no double can hold. *)
Definition huge_run_data : list value := [VInt (2 ^ 1024); VInt 1; VInt 75].

(** The three classes [read_package] can build. *)
Definition concrete (c : pyclass) : bool :=
  match c with
  | Training => false
  | _ => true
  end.


(** * Properties *)

(** ** Evaluation lemmas *)

Lemma lookup_fresh (h : list instance) (o : instance) :
  ((h ++ [o])%list : list instance) !! length h = Some o.
Proof. rewrite lookup_app_r by lia. rewrite Nat.sub_diag. reflexivity. Qed.

Lemma lookup_stored (s : state) (o : instance) :
  heap (stored s o) !! length (heap s) = Some o.
Proof. apply lookup_fresh. Qed.

Section Evals.
Context {A B : Type} (s : state).

Lemma evals_ret (a : A) : evals s (ret a) (Ok a).
Proof. reflexivity. Qed.

Lemma evals_lift (r r' : res A) : r = r' -> evals s (lift r) r'.
Proof. intros ->. reflexivity. Qed.

Lemma evals_bind_ok (m : M A) (k : A -> M B) (a : A) (r : res B) :
  evals s m (Ok a) -> evals s (k a) r -> evals s (bind m k) r.
Proof. unfold evals, bind. intros -> Hk. exact Hk. Qed.

Lemma evals_bind_raise (m : M A) (k : A -> M B) (e : exn) :
  evals s m (Raise e) -> evals s (bind m k) (Raise e).
Proof. unfold evals, bind. intros ->. reflexivity. Qed.

Lemma evals_lift_bind (r : res A) (k : A -> M B) (f : A -> res B) :
  (forall a, evals s (k a) (f a)) ->
  evals s (bind (lift r) k) (res_bind r f).
Proof.
  intros Hk. destruct r as [a|e]; unfold evals, bind, lift; simpl.
  - apply Hk.
  - reflexivity.
Qed.

Lemma evals_eq (m : M A) (r r' : res A) :
  evals s m r -> r = r' -> evals s m r'.
Proof. intros Hm <-. exact Hm. Qed.
End Evals.

Section At.
Context (s : state) (l : loc) (o : instance).
Hypothesis Hl : heap s !! l = Some o.

Lemma evals_deref : evals s (deref (Some l)) (Ok o).
Proof using Hl. unfold evals, deref. rewrite Hl. reflexivity. Qed.

Lemma evals_getattr (name : string) (v : value) :
  attr o name = Some v -> evals s (getattr (Some l) name) (Ok v).
Proof using Hl.
  intros Hv. unfold getattr. eapply evals_bind_ok; [apply evals_deref|].
  rewrite Hv. reflexivity.
Qed.

Lemma evals_type_name :
  evals s (type_name (Some l)) (Ok (class_name (inst_class o))).
Proof using Hl.
  unfold type_name. eapply evals_bind_ok; [apply evals_deref|].
  reflexivity.
Qed.

Lemma evals_call `{Platform} (name : string) (c : pyclass)
    (f : option loc -> M value) (r : res value) :
  resolve (mro (inst_class o)) name = Some c ->
  method_body c name = Some f ->
  evals s (f (Some l)) r ->
  evals s (call_method (Some l) name) r.
Proof using Hl.
  intros Hc Hf Hr. unfold call_method.
  eapply evals_bind_ok; [apply evals_deref|]. rewrite Hc, Hf. exact Hr.
Qed.
End At.

Ltac head_of t :=
  lazymatch t with
  | ?f _ => head_of f
  | _ => t
  end.

(** Evaluation of a method on an instance whose fields are known:
    attributes are looked up, arithmetic on known numbers is computed. *)
Ltac eval_m Hl :=
  lazymatch goal with
  | |- evals _ (bind _ _) _ =>
      first [ eapply evals_bind_ok; [eval_m Hl | cbv beta; eval_m Hl]
            | eapply evals_bind_raise; eval_m Hl ]
  | |- evals _ (getattr _ _) _ =>
      eapply evals_getattr; [exact Hl | reflexivity]
  | |- evals ?s (lift ?r) _ =>
      let v := eval vm_compute in r in
      apply (evals_lift s r v); vm_compute; reflexivity
  | |- evals _ (ret _) _ => apply evals_ret
  | |- evals _ (type_name _) _ => eapply evals_type_name; exact Hl
  | |- evals _ (call_method _ _) _ =>
      eapply evals_call; [exact Hl | reflexivity | reflexivity | eval_m Hl]
  | |- evals _ ?m _ => let h := head_of m in unfold h; eval_m Hl
  end.

Lemma new_stores (c : pyclass) (args : list value) (s : state) :
  length args = length (fields c) ->
  new c args s = (Ok (Some (length (heap s))), stored s (mk_instance c args)).
Proof.
  intros Hn. unfold new. rewrite bool_decide_eq_true_2 by exact Hn.
  reflexivity.
Qed.

Lemma new_rejects (c : pyclass) (args : list value) (s : state) :
  length args <> length (fields c) -> new c args s = (Raise TypeError, s).
Proof.
  intros Hn. unfold new. rewrite bool_decide_eq_false_2 by exact Hn.
  reflexivity.
Qed.

(** ** Methods that only read *)

Section Reads.
Context {A B : Type}.

Lemma reads_ret (a : A) : reads (ret a).
Proof. intros s. reflexivity. Qed.

Lemma reads_raise (e : exn) : reads (@raise A e).
Proof. intros s. reflexivity. Qed.

Lemma reads_lift (r : res A) : reads (lift r).
Proof. intros s. reflexivity. Qed.

Lemma reads_bind (m : M A) (k : A -> M B) :
  reads m -> (forall a, reads (k a)) -> reads (bind m k).
Proof.
  intros Hm Hk s. unfold bind. specialize (Hm s).
  destruct (m s) as [[a|e] s']; simpl in Hm; subst s'.
  - apply Hk.
  - reflexivity.
Qed.
End Reads.

Lemma reads_deref (self : option loc) : reads (deref self).
Proof.
  intros s. unfold deref. destruct self as [l|]; [|reflexivity].
  destruct (heap s !! l); reflexivity.
Qed.

Lemma reads_getattr (self : option loc) (name : string) :
  reads (getattr self name).
Proof.
  unfold getattr. apply reads_bind; [apply reads_deref|].
  intros o. destruct (attr o name); [apply reads_ret | apply reads_raise].
Qed.

Lemma reads_type_name (self : option loc) : reads (type_name self).
Proof.
  destruct self as [l|]; simpl; [|apply reads_ret].
  apply reads_bind; [apply reads_deref | intros o; apply reads_ret].
Qed.

Create HintDb reads discriminated.
#[local] Hint Resolve reads_ret reads_raise reads_lift reads_getattr
  reads_type_name reads_deref : reads.

Ltac reads_method :=
  repeat first
    [ solve [ auto with reads ]
    | apply reads_bind; [ | intro ] ].

Section MethodsRead.
Context `{Platform} (self : option loc).

Lemma reads_Training_get_distance : reads (Training_get_distance self).
Proof. unfold Training_get_distance. reads_method. Qed.

Lemma reads_Training_get_mean_speed : reads (Training_get_mean_speed self).
Proof.
  unfold Training_get_mean_speed.
  apply reads_bind; [apply reads_Training_get_distance | intro].
  reads_method.
Qed.

Lemma reads_Training_get_spent_calories :
  reads (Training_get_spent_calories self).
Proof. apply reads_ret. Qed.

Lemma reads_Running_get_spent_calories :
  reads (Running_get_spent_calories self).
Proof.
  unfold Running_get_spent_calories.
  apply reads_bind; [apply reads_getattr | intro].
  apply reads_bind; [apply reads_Training_get_mean_speed | intro].
  reads_method.
Qed.

Lemma reads_SportsWalking_get_spent_calories :
  reads (SportsWalking_get_spent_calories self).
Proof.
  unfold SportsWalking_get_spent_calories.
  do 3 (apply reads_bind; [auto with reads | intro]).
  apply reads_bind; [apply reads_Training_get_mean_speed | intro].
  reads_method.
Qed.

Lemma reads_Swimming_get_distance : reads (Swimming_get_distance self).
Proof. unfold Swimming_get_distance. reads_method. Qed.

Lemma reads_Swimming_get_mean_speed : reads (Swimming_get_mean_speed self).
Proof. unfold Swimming_get_mean_speed. reads_method. Qed.

Lemma reads_Swimming_get_spent_calories :
  reads (Swimming_get_spent_calories self).
Proof.
  unfold Swimming_get_spent_calories.
  apply reads_bind; [apply reads_Swimming_get_mean_speed | intro].
  reads_method.
Qed.

Lemma reads_method_body (c : pyclass) (name : string)
    (f : option loc -> M value) :
  method_body c name = Some f -> reads (f self).
Proof.
  unfold method_body.
  destruct c;
    repeat match goal with
           | |- context [String.eqb ?a ?b] => destruct (String.eqb a b)
           end;
    intros Hf; inversion Hf; subst f;
    auto using reads_Training_get_distance, reads_Training_get_mean_speed,
      reads_Training_get_spent_calories, reads_Running_get_spent_calories,
      reads_SportsWalking_get_spent_calories, reads_Swimming_get_distance,
      reads_Swimming_get_mean_speed, reads_Swimming_get_spent_calories.
Qed.

Lemma reads_call_method (name : string) : reads (call_method self name).
Proof.
  unfold call_method. apply reads_bind; [apply reads_deref | intros o].
  destruct (resolve (mro (inst_class o)) name) as [c|];
    [|apply reads_raise].
  destruct (method_body c name) as [f|] eqn:Hf; [|apply reads_raise].
  eapply reads_method_body; exact Hf.
Qed.

Lemma reads_show_training_info : reads (Training_show_training_info self).
Proof.
  unfold Training_show_training_info.
  apply reads_bind; [apply reads_type_name | intro].
  apply reads_bind; [apply reads_getattr | intro].
  do 3 (apply reads_bind; [apply reads_call_method | intro]).
  apply reads_ret.
Qed.
End MethodsRead.

(** ** Methods on a stored record *)

Lemma bind_new {B} (c : pyclass) (args : list value) (k : option loc -> M B)
    (s : state) :
  length args = length (fields c) ->
  bind (new c args) k s
  = k (Some (length (heap s))) (stored s (mk_instance c args)).
Proof. intros Hn. unfold bind. rewrite new_stores by exact Hn. reflexivity. Qed.

Section MethodsAt.
Context (s : state) (l : loc) (o : instance).
Hypothesis Hl : heap s !! l = Some o.

Lemma Training_get_distance_at (a k m : value) :
  attr o "action" = Some a ->
  attr o "LEN_STEP" = Some k ->
  attr o "M_IN_KM" = Some m ->
  evals s (Training_get_distance (Some l))
    (res_bind (PyNum.mul a k) (fun x => PyNum.truediv x m)).
Proof using Hl.
  intros Ha Hk Hm. unfold Training_get_distance.
  eapply evals_bind_ok; [eapply evals_getattr; eassumption|].
  eapply evals_bind_ok; [eapply evals_getattr; eassumption|].
  apply evals_lift_bind; intros x.
  eapply evals_bind_ok; [eapply evals_getattr; eassumption|].
  apply evals_lift. reflexivity.
Qed.

Lemma Swimming_get_distance_at (a k m : value) :
  attr o "action" = Some a ->
  attr o "LEN_STEP" = Some k ->
  attr o "M_IN_KM" = Some m ->
  evals s (Swimming_get_distance (Some l))
    (res_bind (PyNum.mul a k) (fun x => PyNum.truediv x m)).
Proof using Hl.
  intros Ha Hk Hm. unfold Swimming_get_distance.
  eapply evals_bind_ok; [eapply evals_getattr; eassumption|].
  eapply evals_bind_ok; [eapply evals_getattr; eassumption|].
  apply evals_lift_bind; intros x.
  eapply evals_bind_ok; [eapply evals_getattr; eassumption|].
  apply evals_lift. reflexivity.
Qed.

Lemma Swimming_get_mean_speed_at (lp cp m d : value) :
  attr o "length_pool" = Some lp ->
  attr o "count_pool" = Some cp ->
  attr o "M_IN_KM" = Some m ->
  attr o "duration" = Some d ->
  evals s (Swimming_get_mean_speed (Some l))
    (res_bind (PyNum.mul lp cp) (fun total =>
     res_bind (PyNum.truediv total m) (fun km => PyNum.truediv km d))).
Proof using Hl.
  intros Hlp Hcp Hm Hd. unfold Swimming_get_mean_speed.
  eapply evals_bind_ok; [eapply evals_getattr; eassumption|].
  eapply evals_bind_ok; [eapply evals_getattr; eassumption|].
  apply evals_lift_bind; intros total.
  eapply evals_bind_ok; [eapply evals_getattr; eassumption|].
  apply evals_lift_bind; intros km.
  eapply evals_bind_ok; [eapply evals_getattr; eassumption|].
  apply evals_lift. reflexivity.
Qed.
End MethodsAt.

(** ** The claims *)

(** C9. No operation on a record changes it: [get_distance],
    [get_mean_speed], [get_spent_calories] (whichever class provides
    the body) and [show_training_info] leave the whole store as it was,
    whether they return or raise; so every field of the record, common
    or variant-specific, reads the same before and after the call. *)
Theorem record_unchanged_by_operations `{Platform}
    (self : option loc) (s : state) :
  (forall name, snd (call_method self name s) = s) /\
  snd (Training_show_training_info self s) = s /\
  (forall name field,
     getattr self field (snd (call_method self name s))
     = getattr self field s) /\
  (forall field,
     getattr self field (snd (Training_show_training_info self s))
     = getattr self field s).
Proof.
  assert (Hc : forall name, snd (call_method self name s) = s)
    by (intros name; apply reads_call_method).
  assert (Hi : snd (Training_show_training_info self s) = s)
    by apply reads_show_training_info.
  repeat split.
  - exact Hc.
  - exact Hi.
  - intros name field. rewrite Hc. reflexivity.
  - intros field. rewrite Hi. reflexivity.
Qed.

(** C3. For every record, [get_distance()] is
    [action * LEN_STEP / 1000] in Python's arithmetic, with the step
    0.65 for Running and SportsWalking and 1.38 for Swimming. *)
Theorem distance_is_action_times_step `{Platform}
    (s : state) (a d w h lp cp : value) :
  (t <- new Running [a; d; w] ;; call_method t "get_distance") s
  = (spec_distance a 0.65, stored s (mk_instance Running [a; d; w])) /\
  (t <- new SportsWalking [a; d; w; h] ;; call_method t "get_distance") s
  = (spec_distance a 0.65,
     stored s (mk_instance SportsWalking [a; d; w; h])) /\
  (t <- new Swimming [a; d; w; lp; cp] ;; call_method t "get_distance") s
  = (spec_distance a 1.38,
     stored s (mk_instance Swimming [a; d; w; lp; cp])).
Proof.
  repeat split; rewrite bind_new by reflexivity;
    (eapply evals_call;
     [ apply lookup_stored | reflexivity | reflexivity | ]).
  - eapply Training_get_distance_at;
      [apply lookup_stored | reflexivity ..].
  - eapply Training_get_distance_at;
      [apply lookup_stored | reflexivity ..].
  - eapply Swimming_get_distance_at;
      [apply lookup_stored | reflexivity ..].
Qed.

(** C4. For every Swimming record, [get_mean_speed()] is
    [(length_pool * count_pool) / 1000 / duration] and so does not
    depend on the stroke count: two records that agree on pool length,
    laps and duration have the same mean speed. *)
Theorem swimming_speed_ignores_action `{Platform}
    (s s' : state) (a a' d w w' lp cp : value) :
  (t <- new Swimming [a; d; w; lp; cp] ;; call_method t "get_mean_speed") s
  = (spec_swimming_speed lp cp d,
     stored s (mk_instance Swimming [a; d; w; lp; cp])) /\
  fst ((t <- new Swimming [a; d; w; lp; cp] ;;
        call_method t "get_mean_speed") s)
  = fst ((t <- new Swimming [a'; d; w'; lp; cp] ;;
          call_method t "get_mean_speed") s').
Proof.
  assert (Hv : forall s0 a0 w0,
    (t <- new Swimming [a0; d; w0; lp; cp] ;;
     call_method t "get_mean_speed") s0
    = (spec_swimming_speed lp cp d,
       stored s0 (mk_instance Swimming [a0; d; w0; lp; cp]))).
  { intros s0 a0 w0. rewrite bind_new by reflexivity.
    eapply evals_call;
      [ apply lookup_stored | reflexivity | reflexivity | ].
    eapply Swimming_get_mean_speed_at;
      [apply lookup_stored | reflexivity ..]. }
  split.
  - apply Hv.
  - rewrite !Hv. reflexivity.
Qed.

(** C2. What the code does on the base class: [get_spent_calories] of
    a plain [Training] record resolves to the base body, which returns
    [None] and raises nothing, on every record and in every state. *)
Theorem base_calories_return_none `{Platform} (s : state) (a d w : value) :
  (t <- new Training [a; d; w] ;; call_method t "get_spent_calories") s
  = (Ok VNone, stored s (mk_instance Training [a; d; w])) /\
  (forall self s0, Training_get_spent_calories self s0 = (Ok VNone, s0)).
Proof.
  split.
  - rewrite bind_new by reflexivity.
    eapply evals_call;
      [ apply lookup_stored | reflexivity | reflexivity | ].
    reflexivity.
  - reflexivity.
Qed.

Lemma fields_count :
  length (fields Running) = 3%nat /\
  length (fields SportsWalking) = 4%nat /\
  length (fields Swimming) = 5%nat.
Proof. repeat split; reflexivity. Qed.

Lemma run_cons `{Platform} (wt : string) (data : list value)
    (rest : list (string * list value)) :
  run ((wt, data) :: rest)
  = (training <- read_package wt data ;; u <- main training ;; run rest).
Proof. reflexivity. Qed.

(** C8. A known workout code with a value list of the wrong length:
    the constructor raises [TypeError], [read_package] lets it through
    unchanged, and so does the loop, which stops there without printing
    or storing anything. The field counts are 3 for RUN, 4 for WLK and
    5 for SWM. *)
Theorem field_count_mismatch_propagates `{Platform}
    (wt : string) (c : pyclass) (data : list value)
    (rest : list (string * list value)) (s : state) :
  dict_training !! wt = Some c ->
  length data <> length (fields c) ->
  read_package wt data s = (Raise TypeError, s) /\
  run ((wt, data) :: rest) s = (Raise TypeError, s).
Proof.
  intros Hc Hn.
  assert (Hr : read_package wt data s = (Raise TypeError, s)).
  { unfold read_package. rewrite Hc. apply new_rejects. exact Hn. }
  split; [exact Hr|].
  rewrite run_cons. unfold bind at 1. rewrite Hr. reflexivity.
Qed.

Lemma field_count_mismatch_propagates_witness :
  dict_training !! "RUN" = Some Running /\
  length [VInt 15000; VInt 1] <> length (fields Running) /\
  read_package "RUN" [VInt 15000; VInt 1] initial
  = (Raise TypeError, initial) /\
  @run sample_platform [("RUN", [VInt 15000; VInt 1]); ("SWM", swm_data)]
    initial
  = (Raise TypeError, initial).
Proof.
  assert (Hc : dict_training !! "RUN" = Some Running) by reflexivity.
  assert (Hn : length [VInt 15000; VInt 1] <> length (fields Running))
    by (vm_compute; lia).
  split; [exact Hc|]. split; [exact Hn|].
  exact (@field_count_mismatch_propagates sample_platform "RUN" Running
           [VInt 15000; VInt 1] [("SWM", swm_data)] initial Hc Hn).
Defined.

Lemma unknown_code_lookup (wt : string) :
  wt <> "SWM" -> wt <> "RUN" -> wt <> "WLK" -> dict_training !! wt = None.
Proof.
  intros Hs Hr Hw. unfold dict_training.
  rewrite lookup_insert_ne by congruence.
  rewrite lookup_insert_ne by congruence.
  apply lookup_singleton_ne. congruence.
Qed.

(** C1. What the code does on a workout code other than "SWM", "RUN"
    and "WLK": [read_package] prints the diagnostic and returns [None]
    without raising, but the loop then passes [None] to [main], where
    reading [duration] raises [AttributeError]; the run stops there, no
    report line is printed and the remaining packages are not
    processed. *)
Theorem unknown_code_stops_the_run `{Platform}
    (wt : string) (data : list value)
    (rest : list (string * list value)) (s : state) :
  wt <> "SWM" -> wt <> "RUN" -> wt <> "WLK" ->
  read_package wt data s = (Ok None, printed s not_found_line) /\
  main None (printed s not_found_line)
  = (Raise AttributeError, printed s not_found_line) /\
  run ((wt, data) :: rest) s
  = (Raise AttributeError, printed s not_found_line).
Proof.
  intros Hs Hr Hw.
  pose proof (unknown_code_lookup wt Hs Hr Hw) as Hc.
  assert (Hp : read_package wt data s = (Ok None, printed s not_found_line)).
  { unfold read_package. rewrite Hc. reflexivity. }
  split; [exact Hp|]. split; [reflexivity|].
  rewrite run_cons. unfold bind at 1. rewrite Hp. reflexivity.
Qed.

Lemma unknown_code_stops_the_run_witness :
  read_package "XYZ" [VInt 1; VInt 2; VInt 3] initial
  = (Ok None, printed initial not_found_line) /\
  @main sample_platform None (printed initial not_found_line)
  = (Raise AttributeError, printed initial not_found_line) /\
  @run sample_platform
    [("XYZ", [VInt 1; VInt 2; VInt 3]); ("RUN", run_data)] initial
  = (Raise AttributeError, printed initial not_found_line).
Proof.
  apply (@unknown_code_stops_the_run sample_platform "XYZ"
           [VInt 1; VInt 2; VInt 3] [("RUN", run_data)] initial);
    discriminate.
Defined.

(** ** The shape of a rendered number *)

Lemma is_digit_digit (d : Z) : (0 <= d <= 9)%Z -> is_digit (PyFormat.digit d) = true.
Proof.
  intros Hd.
  assert (Hc : (d = 0 \/ d = 1 \/ d = 2 \/ d = 3 \/ d = 4 \/ d = 5 \/ d = 6
               \/ d = 7 \/ d = 8 \/ d = 9)%Z) by lia.
  repeat (destruct Hc as [-> | Hc]; [reflexivity|]). subst d. reflexivity.
Qed.

Lemma is_digit_mod10 (n : Z) : is_digit (PyFormat.digit (n mod 10)) = true.
Proof. apply is_digit_digit. pose proof (Z.mod_pos_bound n 10). lia. Qed.

Lemma all_digits_uint (u : uint) : all_digits (NilEmpty.string_of_uint u) = true.
Proof. induction u; simpl; try rewrite IHu; reflexivity. Qed.

Lemma decimal_shape (n : Z) :
  exists c r, PyFormat.decimal n = String c r /\ is_digit c = true /\ all_digits r = true.
Proof.
  unfold PyFormat.decimal. generalize (N.to_uint (Z.to_N n)). intros u.
  pose proof (all_digits_uint u) as Hu.
  destruct u; simpl in *;
    try (apply andb_prop in Hu; destruct Hu as [Hc Hr]);
    eexists _, _; (split; [reflexivity|]); split; try assumption; reflexivity.
Qed.

Lemma is_digit_not_point (c : ascii) : is_digit c = true -> Ascii.eqb c "." = false.
Proof.
  intros Hc. destruct (Ascii.eqb_spec c ".") as [->|]; [discriminate Hc | reflexivity].
Qed.

Lemma is_digit_not_minus (c : ascii) : is_digit c = true -> Ascii.eqb c "-" = false.
Proof.
  intros Hc. destruct (Ascii.eqb_spec c "-") as [->|]; [discriminate Hc | reflexivity].
Qed.

Lemma is_unsigned_fixed3_digits (ds tail : string) (seen : bool) :
  all_digits ds = true ->
  String.length tail = 3%nat -> all_digits tail = true ->
  is_unsigned_fixed3 true (ds +:+ String "." tail) = true.
Proof.
  intros Hds Hlen Htail. induction ds as [|c ds IH]; simpl.
  - rewrite Hlen, Htail. reflexivity.
  - simpl in Hds. apply andb_prop in Hds. destruct Hds as [Hc Hds].
    rewrite (is_digit_not_point c Hc), Hc. simpl. apply IH. exact Hds.
Qed.

Lemma is_fixed3_fixed3 (neg : bool) (n : Z) : is_fixed3 (PyFormat.fixed3 neg n) = true.
Proof.
  unfold PyFormat.fixed3.
  destruct (decimal_shape (n / 1000)) as (c & r & -> & Hc & Hr).
  pose proof (is_digit_mod10 (n / 100)) as H2.
  pose proof (is_digit_mod10 (n / 10)) as H1.
  pose proof (is_digit_mod10 n) as H0.
  generalize dependent (PyFormat.digit (n / 100 mod 10)). intros d2 H2.
  generalize dependent (PyFormat.digit (n / 10 mod 10)). intros d1 H1.
  generalize dependent (PyFormat.digit (n mod 10)). intros d0 H0.
  set (tail := String d2 (String d1 (String d0 EmptyString))).
  assert (Htail : all_digits tail = true).
  { unfold tail. cbn [all_digits]. rewrite H2, H1, H0. reflexivity. }
  assert (Hlen : String.length tail = 3%nat) by reflexivity.
  clearbody tail.
  assert (Hu : is_unsigned_fixed3 false (String c (r +:+ String "." tail)) = true).
  { cbn [is_unsigned_fixed3]. rewrite (is_digit_not_point c Hc), Hc.
    apply (is_unsigned_fixed3_digits r tail true Hr Hlen Htail). }
  destruct neg.
  - exact Hu.
  - change (EmptyString +:+ String c r +:+ "." +:+ tail) with (String c (r +:+ String "." tail)).
    unfold is_fixed3. rewrite (is_digit_not_minus c Hc). exact Hu.
Qed.

Lemma Prim2SF_finite (x : float) :
  PrimFloat.is_finite x = true ->
  (exists sg, Prim2SF x = S754_zero sg) \/ (exists sg m e, Prim2SF x = S754_finite sg m e).
Proof.
  unfold PrimFloat.is_finite, Prim2SF. intros Hf.
  apply negb_true_iff, orb_false_iff in Hf. destruct Hf as [Hn Hi].
  rewrite Hn, Hi. destruct (is_zero x); [left; eauto|].
  destruct (FloatOps.Z.frexp x) as [r ex].
  destruct (shr_fexp _ _ _ _ _) as [sh e'].
  destruct (shr_m sh); [left | right | left]; eauto.
Qed.

Lemma is_fixed3_float (x : float) :
  PrimFloat.is_finite x = true -> is_fixed3 (PyFormat.float_f3 x) = true.
Proof.
  intros Hf. unfold PyFormat.float_f3.
  destruct (Prim2SF_finite x Hf) as [[sg ->] | (sg & m & e & ->)];
    apply is_fixed3_fixed3.
Qed.

(** ** The report line *)

Lemma parse_MESSAGE :
  PyFormat.parse (PyFormat.InText EmptyString) InfoMessage_MESSAGE
  = Ok [PyFormat.Lit "Тип тренировки: ";
        PyFormat.Field "training_type" EmptyString;
        PyFormat.Lit "; Длительность: ";
        PyFormat.Field "duration" ".3f";
        PyFormat.Lit " ч.; Дистанция: ";
        PyFormat.Field "distance" ".3f";
        PyFormat.Lit " км; Ср. скорость: ";
        PyFormat.Field "speed" ".3f";
        PyFormat.Lit " км/ч; Потрачено ккал: ";
        PyFormat.Field "calories" ".3f";
        PyFormat.Lit "."].
Proof. vm_compute. reflexivity. Qed.

Lemma format_MESSAGE `{Platform} (m : InfoMessage) :
  PyFormat.format InfoMessage_MESSAGE (asdict m)
  = res_bind (PyFormat.format_value ".3f" (PyFormat.AVal (duration m)))
      (fun d =>
       res_bind (PyFormat.format_value ".3f" (PyFormat.AVal (distance m)))
         (fun dist =>
          res_bind (PyFormat.format_value ".3f" (PyFormat.AVal (speed m)))
            (fun v =>
             res_bind
               (PyFormat.format_value ".3f" (PyFormat.AVal (calories m)))
               (fun cal =>
                Ok (report_line (training_type m) d dist v cal))))).
Proof.
  unfold PyFormat.format. rewrite parse_MESSAGE.
  cbn [res_bind PyFormat.render].
  change (asdict m !! "training_type")
    with (Some (PyFormat.AStr (training_type m))).
  change (asdict m !! "duration") with (Some (PyFormat.AVal (duration m))).
  change (asdict m !! "distance") with (Some (PyFormat.AVal (distance m))).
  change (asdict m !! "speed") with (Some (PyFormat.AVal (speed m))).
  change (asdict m !! "calories") with (Some (PyFormat.AVal (calories m))).
  cbv beta iota.
  destruct (PyFormat.format_value ".3f" (PyFormat.AVal (duration m)));
    destruct (PyFormat.format_value ".3f" (PyFormat.AVal (distance m)));
    destruct (PyFormat.format_value ".3f" (PyFormat.AVal (speed m)));
    destruct (PyFormat.format_value ".3f" (PyFormat.AVal (calories m)));
    reflexivity.
Qed.

Lemma format_renderable `{Platform} (v : value) :
  renderable v = true ->
  PyFormat.format_value ".3f" (PyFormat.AVal v) = Ok (metric_f3 v).
Proof.
  unfold renderable, metric_f3, metric_float, PyFormat.format_value.
  change (String.eqb ".3f" EmptyString) with false.
  change (String.eqb ".3f" ".3f") with true. cbv iota.
  destruct v as [|z|x]; [discriminate| |reflexivity].
  destruct (PyNum.int_to_float z); [reflexivity | discriminate].
Qed.

Lemma float_f3_nan (x : float) :
  PrimFloat.is_nan x = true -> PyFormat.float_f3 x = "nan".
Proof.
  intros Hn. unfold PyFormat.float_f3, Prim2SF. rewrite Hn. reflexivity.
Qed.

Lemma infinite_is_not_zero (x : float) :
  PrimFloat.is_infinity x = true -> PrimFloat.is_zero x = false.
Proof.
  unfold PrimFloat.is_infinity, PrimFloat.is_zero.
  rewrite !FloatAxioms.eqb_spec, FloatAxioms.abs_spec.
  change (Prim2SF PrimFloat.infinity) with (S754_infinity false).
  change (Prim2SF PrimFloat.zero) with (S754_zero false).
  destruct (Prim2SF x) as [[|]|[|]| |[|] m e]; intros E;
    try discriminate E; reflexivity.
Qed.

Lemma float_f3_infinite (x : float) :
  PrimFloat.is_nan x = false ->
  PrimFloat.is_infinity x = true ->
  PyFormat.float_f3 x
  = (if PrimFloat.ltb x PrimFloat.zero then "-inf" else "inf").
Proof.
  intros Hn Hi. pose proof (infinite_is_not_zero x Hi) as Hz.
  unfold PyFormat.float_f3, Prim2SF. rewrite Hn, Hz, Hi.
  unfold PrimFloat.get_sign. rewrite Hz. reflexivity.
Qed.

Lemma metric_shape_renderable (v : value) :
  renderable v = true -> metric_shape v = true.
Proof.
  unfold renderable, metric_shape, metric_f3.
  destruct (metric_float v) as [x|]; [intros _ | discriminate].
  destruct (PrimFloat.is_nan x) eqn:Hn.
  - rewrite (float_f3_nan x Hn). reflexivity.
  - destruct (PrimFloat.is_infinity x) eqn:Hi.
    + rewrite (float_f3_infinite x Hn Hi).
      destruct (PrimFloat.ltb x PrimFloat.zero); reflexivity.
    + apply is_fixed3_float. unfold PrimFloat.is_finite.
      rewrite Hn, Hi. reflexivity.
Qed.

Lemma bind_inv {A B} (m : M A) (k : A -> M B) (s s2 : state) (b : B) :
  bind m k s = (Ok b, s2) ->
  exists a s1, m s = (Ok a, s1) /\ k a s1 = (Ok b, s2).
Proof.
  unfold bind. destruct (m s) as [[a|e] s1]; [eauto | discriminate].
Qed.

Lemma get_message_inv `{Platform} (m : InfoMessage) (s s' : state)
    (line : string) :
  InfoMessage_get_message m s = (Ok line, s') ->
  s' = s /\
  exists d dist v cal, line = report_line (training_type m) d dist v cal.
Proof.
  unfold InfoMessage_get_message, lift. rewrite format_MESSAGE.
  destruct (PyFormat.format_value ".3f" (PyFormat.AVal (duration m))) as [d|];
    [|discriminate].
  destruct (PyFormat.format_value ".3f" (PyFormat.AVal (distance m)))
    as [dist|]; [|discriminate].
  destruct (PyFormat.format_value ".3f" (PyFormat.AVal (speed m))) as [v|];
    [|discriminate].
  destruct (PyFormat.format_value ".3f" (PyFormat.AVal (calories m)))
    as [cal|]; [|discriminate].
  cbn [res_bind]. intros E. inversion E. split; [reflexivity | eauto].
Qed.

Lemma main_prints `{Platform} (s : state) (t : option loc)
    (info : InfoMessage) (line : string) :
  evals s (Training_show_training_info t) (Ok info) ->
  PyFormat.format InfoMessage_MESSAGE (asdict info) = Ok line ->
  main t s = (Ok tt, printed s line).
Proof.
  intros Hi Hf. unfold main, bind. rewrite Hi.
  unfold InfoMessage_get_message, lift. rewrite Hf. reflexivity.
Qed.

Lemma read_package_inv (wt : string) (c : pyclass) (data : list value)
    (s s1 : state) (t : option loc) :
  dict_training !! wt = Some c ->
  read_package wt data s = (Ok t, s1) ->
  t = Some (length (heap s)) /\ s1 = stored s (mk_instance c data).
Proof.
  intros Hc. unfold read_package, new. rewrite Hc.
  destruct (bool_decide _); [|discriminate].
  intros E. inversion E. split; reflexivity.
Qed.

Lemma show_training_info_type `{Platform} (s s2 : state) (l : loc)
    (o : instance) (info : InfoMessage) :
  heap s !! l = Some o ->
  Training_show_training_info (Some l) s = (Ok info, s2) ->
  training_type info = class_name (inst_class o).
Proof.
  intros Hl Hs. unfold Training_show_training_info in Hs.
  apply bind_inv in Hs as (name & s1 & Hn & Hs).
  rewrite (evals_type_name s l o Hl) in Hn. inversion Hn; subst name s1.
  do 4 (apply bind_inv in Hs as (? & ? & _ & Hs)).
  inversion Hs. reflexivity.
Qed.

(** ** The sample records and the report *)

(** The run of the module as it stands, on the sample platform: three
    records, three report lines. *)
Example packages_output :
  fst (@run sample_platform packages initial) = Ok tt /\
  stdout (snd (@run sample_platform packages initial))
  = [ report_line "Swimming" "1.000" "0.994" "1.000" "336.000";
      report_line "Running" "1.000" "9.750" "9.750" "797.805";
      report_line "SportsWalking" "1.000" "5.850" "5.850" "349.252" ].
Proof. split; vm_compute; reflexivity. Qed.

(** C5 (amended). For the input [("RUN", [15000, 1, 75])] the record
    has distance 9.75 and mean speed 9.75, and the calories are
    [(18*9.75+1.79)*75/1000*60] in double arithmetic, a value between
    797.8049 and 797.8051; the report line shows 1.000, 9.750, 9.750
    and 797.805. *)
Theorem run_scenario_metrics `{Platform} (s : state) :
  read_package "RUN" run_data s
  = (Ok (fresh_ref s), stored s (mk_instance Running run_data)) /\
  call_method (fresh_ref s) "get_distance"
    (stored s (mk_instance Running run_data))
  = (Ok (VFloat 9.75), stored s (mk_instance Running run_data)) /\
  call_method (fresh_ref s) "get_mean_speed"
    (stored s (mk_instance Running run_data))
  = (Ok (VFloat 9.75), stored s (mk_instance Running run_data)) /\
  call_method (fresh_ref s) "get_spent_calories"
    (stored s (mk_instance Running run_data))
  = (Ok (VFloat run_calories), stored s (mk_instance Running run_data)) /\
  (797.8049 <? run_calories)%float = true /\
  (run_calories <? 797.8051)%float = true /\
  main (fresh_ref s) (stored s (mk_instance Running run_data))
  = (Ok tt,
     printed (stored s (mk_instance Running run_data))
       (report_line "Running" "1.000" "9.750" "9.750" "797.805")).
Proof.
  pose proof (lookup_stored s (mk_instance Running run_data)) as Hl.
  unfold fresh_ref.
  split; [apply new_stores; reflexivity|].
  split; [eapply evals_eq; [eval_m Hl | vm_compute; reflexivity]|].
  split; [eapply evals_eq; [eval_m Hl | vm_compute; reflexivity]|].
  split; [eapply evals_eq; [eval_m Hl | vm_compute; reflexivity]|].
  split; [vm_compute; reflexivity|].
  split; [vm_compute; reflexivity|].
  eapply main_prints.
  - eapply evals_eq; [eval_m Hl | reflexivity].
  - vm_compute. reflexivity.
Qed.

(** C5 as stated fails: the calories of the sample run are more than
    0.2 below 798.0075, and they are rendered 797.805, which is not how
    798.0075 is rendered. *)
Lemma run_scenario_calories_not_798 :
  @call_method sample_platform (Some 0%nat) "get_spent_calories"
    (stored initial (mk_instance Running run_data))
  = (Ok (VFloat run_calories),
     stored initial (mk_instance Running run_data)) /\
  (run_calories + 0.2 <? 798.0075)%float = true /\
  PyFormat.float_f3 run_calories = "797.805" /\
  PyFormat.float_f3 798.0075 <> "797.805".
Proof.
  split; [vm_compute; reflexivity|].
  split; [vm_compute; reflexivity|].
  split; [vm_compute; reflexivity|].
  vm_compute. discriminate.
Qed.

(** C6 (amended). For the input [("SWM", [720, 1, 80, 25, 40])] the
    distance is [720*1.38/1000] in double arithmetic, which is the
    double just below 0.9936 and is shown as 0.994; the mean speed is
    1.0 and the calories are 336.0. *)
Theorem swim_scenario_metrics `{Platform} (s : state) :
  read_package "SWM" swm_data s
  = (Ok (fresh_ref s), stored s (mk_instance Swimming swm_data)) /\
  call_method (fresh_ref s) "get_distance"
    (stored s (mk_instance Swimming swm_data))
  = (Ok (VFloat swm_distance), stored s (mk_instance Swimming swm_data)) /\
  PrimFloat.next_up swm_distance = 0.9936%float /\
  PyFormat.float_f3 swm_distance = "0.994" /\
  call_method (fresh_ref s) "get_mean_speed"
    (stored s (mk_instance Swimming swm_data))
  = (Ok (VFloat 1.0), stored s (mk_instance Swimming swm_data)) /\
  call_method (fresh_ref s) "get_spent_calories"
    (stored s (mk_instance Swimming swm_data))
  = (Ok (VFloat 336.0), stored s (mk_instance Swimming swm_data)) /\
  main (fresh_ref s) (stored s (mk_instance Swimming swm_data))
  = (Ok tt,
     printed (stored s (mk_instance Swimming swm_data))
       (report_line "Swimming" "1.000" "0.994" "1.000" "336.000")).
Proof.
  pose proof (lookup_stored s (mk_instance Swimming swm_data)) as Hl.
  unfold fresh_ref.
  split; [apply new_stores; reflexivity|].
  split; [eapply evals_eq; [eval_m Hl | vm_compute; reflexivity]|].
  split; [vm_compute; reflexivity|].
  split; [vm_compute; reflexivity|].
  split; [eapply evals_eq; [eval_m Hl | vm_compute; reflexivity]|].
  split; [eapply evals_eq; [eval_m Hl | vm_compute; reflexivity]|].
  eapply main_prints.
  - eapply evals_eq; [eval_m Hl | reflexivity].
  - vm_compute. reflexivity.
Qed.

(** C6 as stated fails: the distance of the sample swim is below the
    double 0.9936, not equal to it. *)
Lemma swim_scenario_distance_not_exact :
  @call_method sample_platform (Some 0%nat) "get_distance"
    (stored initial (mk_instance Swimming swm_data))
  = (Ok (VFloat swm_distance),
     stored initial (mk_instance Swimming swm_data)) /\
  (swm_distance <? 0.9936)%float = true /\
  (swm_distance =? 0.9936)%float = false /\
  VFloat swm_distance <> VFloat 0.9936.
Proof.
  split; [vm_compute; reflexivity|].
  split; [vm_compute; reflexivity|].
  split; [vm_compute; reflexivity|].
  intros E.
  apply (f_equal (fun v => match v with
                           | VFloat x => (x <? 0.9936)%float
                           | _ => false
                           end)) in E.
  vm_compute in E. discriminate E.
Qed.

(** C7 (amended). For every message whose four metrics are numbers
    the [.3f] format accepts (a float, or an int that converts to
    one), the formatter produces the one line
    "Тип тренировки: {training_type}; Длительность: {duration:.3f} ч.;
    Дистанция: {distance:.3f} км; Ср. скорость: {speed:.3f} км/ч;
    Потрачено ккал: {calories:.3f}." and each metric is rendered by its
    kind: a finite number in fixed-point notation with exactly three
    fractional digits, whatever its magnitude; a positive infinity as
    "inf", a negative infinity as "-inf"; a NaN as "nan". *)
Theorem report_line_renders_each_metric `{Platform}
    (m : InfoMessage) (s : state) :
  renderable (duration m) = true ->
  renderable (distance m) = true ->
  renderable (speed m) = true ->
  renderable (calories m) = true ->
  InfoMessage_get_message m s
  = (Ok (report_line (training_type m) (metric_f3 (duration m))
           (metric_f3 (distance m)) (metric_f3 (speed m))
           (metric_f3 (calories m))), s) /\
  metric_shape (duration m) = true /\
  metric_shape (distance m) = true /\
  metric_shape (speed m) = true /\
  metric_shape (calories m) = true.
Proof.
  intros Hd Hdist Hv Hcal. split.
  - unfold InfoMessage_get_message, lift. rewrite format_MESSAGE.
    rewrite !format_renderable by assumption. reflexivity.
  - auto using metric_shape_renderable.
Qed.

Lemma report_line_renders_each_metric_witness :
  @InfoMessage_get_message sample_platform sample_message initial
  = (Ok (report_line "Running" "1.000" (metric_f3 (VFloat 1e300))
           "-inf" "nan"), initial) /\
  metric_shape (VInt 1) = true /\
  metric_shape (VFloat 1e300) = true /\
  metric_shape (VFloat PrimFloat.neg_infinity) = true /\
  metric_shape (VFloat PrimFloat.nan) = true.
Proof.
  apply (@report_line_renders_each_metric sample_platform sample_message
           initial); vm_compute; reflexivity.
Defined.

(** C7 as stated fails: the line of the source is not the line the
    specification quotes (the labels are Russian), and a metric that
    has overflowed to infinity, as the calories of a run with weight
    1e308 do, is rendered "inf", with no fractional digits. *)
Lemma report_line_not_as_quoted :
  @InfoMessage_get_message sample_platform
    {| training_type := "Running"; duration := VInt 1;
       distance := VFloat 9.75; speed := VFloat 9.75;
       calories := VFloat 797.805 |} initial
  = (Ok (report_line "Running" "1.000" "9.750" "9.750" "797.805"), initial)
  /\ report_line "Running" "1.000" "9.750" "9.750" "797.805"
     <> spec_report_line "Running" "1.000" "9.750" "9.750" "797.805"
  /\ @run sample_platform [("RUN", heavy_run_data)] initial
     = (Ok tt,
        printed (stored initial (mk_instance Running heavy_run_data))
          (report_line "Running" "1.000" "9.750" "9.750" "inf"))
  /\ is_fixed3 "inf" = false.
Proof.
  split; [vm_compute; reflexivity|].
  split; [vm_compute; discriminate|].
  split; [vm_compute; reflexivity|].
  reflexivity.
Qed.

(** C10. The label in the report is the class name of the record:
    whenever a known code gives a record, the message built from it has
    that class's name as its training type, and the rendered line
    carries it after "Тип тренировки: "; the names are "Running" for
    RUN, "Swimming" for SWM and "SportsWalking" for WLK. *)
Theorem report_label_is_class_name `{Platform}
    (wt : string) (c : pyclass) (data : list value) (s s1 s2 s3 : state)
    (t : option loc) (info : InfoMessage) (line : string) :
  dict_training !! wt = Some c ->
  read_package wt data s = (Ok t, s1) ->
  Training_show_training_info t s1 = (Ok info, s2) ->
  InfoMessage_get_message info s2 = (Ok line, s3) ->
  training_type info = class_name c /\
  (exists d dist v cal, line = report_line (class_name c) d dist v cal) /\
  dict_training !! "RUN" = Some Running /\
  class_name Running = "Running" /\
  dict_training !! "SWM" = Some Swimming /\
  class_name Swimming = "Swimming" /\
  dict_training !! "WLK" = Some SportsWalking /\
  class_name SportsWalking = "SportsWalking".
Proof.
  intros Hc Hr Hi Hm.
  destruct (read_package_inv wt c data s s1 t Hc Hr) as [-> ->].
  pose proof (show_training_info_type _ _ _ _ _
                (lookup_stored s (mk_instance c data)) Hi) as Ht.
  cbn [inst_class mk_instance] in Ht.
  apply get_message_inv in Hm as (_ & d & dist & v & cal & ->).
  rewrite Ht. split; [reflexivity|]. split; [eauto|].
  repeat split; reflexivity.
Qed.

Lemma report_label_is_class_name_witness :
  training_type
    {| training_type := "Running"; duration := VInt 1;
       distance := VFloat 9.75; speed := VFloat 9.75;
       calories := VFloat run_calories |} = "Running" /\
  (exists d dist v cal,
     report_line "Running" "1.000" "9.750" "9.750" "797.805"
     = report_line "Running" d dist v cal).
Proof.
  pose proof (@report_label_is_class_name sample_platform "RUN" Running
    run_data initial (stored initial (mk_instance Running run_data))
    (stored initial (mk_instance Running run_data))
    (stored initial (mk_instance Running run_data))
    (Some 0%nat)
    {| training_type := "Running"; duration := VInt 1;
       distance := VFloat 9.75; speed := VFloat 9.75;
       calories := VFloat run_calories |}
    (report_line "Running" "1.000" "9.750" "9.750" "797.805")
    eq_refl eq_refl) as W.
  specialize (W ltac:(vm_compute; reflexivity) ltac:(vm_compute; reflexivity)).
  destruct W as (W1 & W2 & _). split; [exact W1 | exact W2].
Defined.

(** * Further properties of the module *)

(** ** The formulas of the methods *)

Lemma evals_bind_res {A B} (s : state) (m : M A) (k : A -> M B)
    (r : res A) (f : A -> res B) :
  evals s m r -> (forall a, evals s (k a) (f a)) ->
  evals s (bind m k) (res_bind r f).
Proof.
  unfold evals, bind. intros -> Hk. destruct r as [a|e]; simpl.
  - apply Hk.
  - reflexivity.
Qed.

(** One step of a method body on a record whose attributes are known,
    the numbers left symbolic. *)
Ltac sym_step Hl :=
  lazymatch goal with
  | |- evals _ (bind (getattr _ _) _) _ =>
      eapply evals_bind_ok;
      [ eapply evals_getattr; [exact Hl | reflexivity] | cbv beta ]
  | |- evals _ (bind (lift _) _) _ => apply evals_lift_bind; intro
  | |- evals _ (lift _) _ => apply evals_lift; reflexivity
  end.

Section Formulas.
Context `{Platform} (s : state) (l : loc).

Lemma Training_get_mean_speed_at (o : instance) (a d : value) :
  heap s !! l = Some o ->
  attr o "action" = Some a ->
  attr o "LEN_STEP" = Some (VFloat 0.65) ->
  attr o "M_IN_KM" = Some (VInt 1000) ->
  attr o "duration" = Some d ->
  evals s (Training_get_mean_speed (Some l)) (mean_speed_expr a d).
Proof.
  intros Hl Ha Hk Hm Hd. unfold Training_get_mean_speed, mean_speed_expr.
  pose proof (Training_get_distance_at s l o Hl a _ _ Ha Hk Hm) as Hdist.
  assert (Hr : forall r : res value,
    res_bind r (fun steps =>
      res_bind (PyNum.truediv steps (VInt 1000))
        (fun dist => PyNum.truediv dist d))
    = res_bind (res_bind r (fun x => PyNum.truediv x (VInt 1000)))
        (fun dist => PyNum.truediv dist d))
    by (intros [x|e]; reflexivity).
  rewrite Hr. eapply evals_bind_res; [exact Hdist|]. intros dist.
  eapply evals_bind_ok; [eapply evals_getattr; eassumption|].
  apply evals_lift. reflexivity.
Qed.

Lemma Running_get_spent_calories_at (a d w : value) :
  record_at s l Running [a; d; w] ->
  evals s (Running_get_spent_calories (Some l))
    (running_calories_expr a d w).
Proof.
  intros Hl. unfold Running_get_spent_calories, running_calories_expr.
  sym_step Hl.
  eapply evals_bind_res;
    [ eapply Training_get_mean_speed_at; [exact Hl | reflexivity ..] | ].
  intros v. repeat sym_step Hl.
Qed.

Lemma SportsWalking_get_spent_calories_at (a d w h : value) :
  record_at s l SportsWalking [a; d; w; h] ->
  evals s (SportsWalking_get_spent_calories (Some l))
    (walking_calories_expr a d w h).
Proof.
  intros Hl. unfold SportsWalking_get_spent_calories, walking_calories_expr.
  do 3 sym_step Hl.
  eapply evals_bind_res;
    [ eapply Training_get_mean_speed_at; [exact Hl | reflexivity ..] | ].
  intros v. repeat sym_step Hl.
Qed.

Lemma Swimming_get_spent_calories_at (a d w lp cp : value) :
  record_at s l Swimming [a; d; w; lp; cp] ->
  evals s (Swimming_get_spent_calories (Some l))
    (swimming_calories_expr d w lp cp).
Proof.
  intros Hl. unfold Swimming_get_spent_calories, swimming_calories_expr.
  eapply evals_bind_res;
    [ eapply Swimming_get_mean_speed_at; [exact Hl | reflexivity ..] | ].
  intros v. repeat sym_step Hl.
Qed.

End Formulas.

(** ** Helper facts *)

Lemma one_record_at (c : pyclass) (data : list value) :
  record_at (one_record c data) 0%nat c data.
Proof. reflexivity. Qed.

Lemma reads_evals {A} (m : M A) (s : state) :
  reads m -> evals s m (fst (m s)).
Proof.
  intros Hm. unfold evals. specialize (Hm s).
  destruct (m s) as [r s']. simpl in *. subst s'. reflexivity.
Qed.

Lemma truediv_is_float (u v r : value) :
  PyNum.truediv u v = Ok r -> exists y, r = VFloat y.
Proof.
  unfold PyNum.truediv.
  destruct u as [|a|x], v as [|b|y]; try discriminate.
  - destruct (PyNum.int_true_divide a b); [|discriminate].
    intros E; inversion E; eauto.
  - destruct (PyNum.int_to_float a); [|discriminate]. cbn [res_bind].
    destruct (PyNum.float_div _ y); [|discriminate].
    intros E; inversion E; eauto.
  - destruct (PyNum.int_to_float b); [|discriminate]. cbn [res_bind].
    destruct (PyNum.float_div x _); [|discriminate].
    intros E; inversion E; eauto.
  - destruct (PyNum.float_div x y); [|discriminate].
    intros E; inversion E; eauto.
Qed.

Lemma truediv_zero (y : float) (d : value) :
  zero_number d = true ->
  PyNum.truediv (VFloat y) d = Raise ZeroDivisionError.
Proof.
  destruct d as [|z|x]; simpl; [discriminate| |].
  - intros Hz. apply Z.eqb_eq in Hz. subst z. reflexivity.
  - intros Hx. unfold PyNum.float_div. rewrite Hx. reflexivity.
Qed.

Lemma spec_distance_is_float (a dist : value) (k : float) :
  spec_distance a k = Ok dist -> exists y, dist = VFloat y.
Proof.
  unfold spec_distance. destruct (PyNum.mul a (VFloat k)); [|discriminate].
  apply truediv_is_float.
Qed.

Lemma mean_speed_expr_distance (a d : value) :
  mean_speed_expr a d
  = res_bind (spec_distance a 0.65) (fun dist => PyNum.truediv dist d).
Proof.
  unfold mean_speed_expr, spec_distance.
  destruct (PyNum.mul a (VFloat 0.65)); reflexivity.
Qed.

Section Dispatch.
Context `{Platform} (s : state) (l : loc).

Lemma running_like_speed (c : pyclass) (data : list value)
    (a d w h : value) :
  (c = Running /\ data = [a; d; w]) \/
  (c = SportsWalking /\ data = [a; d; w; h]) ->
  record_at s l c data ->
  evals s (call_method (Some l) "get_mean_speed") (mean_speed_expr a d).
Proof.
  intros [[-> ->] | [-> ->]] Hl;
    (eapply evals_call; [exact Hl | reflexivity | reflexivity |]);
    (eapply Training_get_mean_speed_at; [exact Hl | reflexivity ..]).
Qed.

Lemma running_like_distance (c : pyclass) (data : list value)
    (a d w h : value) :
  (c = Running /\ data = [a; d; w]) \/
  (c = SportsWalking /\ data = [a; d; w; h]) ->
  record_at s l c data ->
  evals s (call_method (Some l) "get_distance") (spec_distance a 0.65).
Proof.
  intros [[-> ->] | [-> ->]] Hl;
    (eapply evals_call; [exact Hl | reflexivity | reflexivity |]);
    (eapply Training_get_distance_at; [exact Hl | reflexivity ..]).
Qed.

Lemma show_training_info_at (o : instance) (d : value) :
  heap s !! l = Some o ->
  attr o "duration" = Some d ->
  evals s (Training_show_training_info (Some l))
    (res_bind (fst (call_method (Some l) "get_distance" s)) (fun dist =>
     res_bind (fst (call_method (Some l) "get_mean_speed" s)) (fun v =>
     res_bind (fst (call_method (Some l) "get_spent_calories" s))
       (fun cal =>
        Ok {| training_type := class_name (inst_class o); duration := d;
              distance := dist; speed := v; calories := cal |})))).
Proof.
  intros Hl Hd. unfold Training_show_training_info.
  eapply evals_bind_ok; [eapply evals_type_name; exact Hl|].
  eapply evals_bind_ok; [eapply evals_getattr; eassumption|].
  eapply evals_bind_res;
    [apply reads_evals, reads_call_method | intros dist].
  eapply evals_bind_res;
    [apply reads_evals, reads_call_method | intros v].
  eapply evals_bind_res;
    [apply reads_evals, reads_call_method | intros cal].
  apply evals_ret.
Qed.

End Dispatch.

Lemma main_outcome `{Platform} (t : option loc) (s : state) :
  (exists info line,
     Training_show_training_info t s = (Ok info, s) /\
     PyFormat.format InfoMessage_MESSAGE (asdict info) = Ok line /\
     main t s = (Ok tt, printed s line)) \/
  (exists e, main t s = (Raise e, s)).
Proof.
  unfold main, bind.
  pose proof (reads_show_training_info t s) as Hs.
  destruct (Training_show_training_info t s) as [[info|e] s1];
    simpl in Hs; subst s1; [|right; eauto].
  unfold InfoMessage_get_message, lift.
  destruct (PyFormat.format InfoMessage_MESSAGE (asdict info))
    as [line|e] eqn:Hf.
  - left. exists info, line. repeat split. exact Hf.
  - right. eauto.
Qed.

Section SwimmingDispatch.
Context `{Platform} (s : state) (l : loc) (a d w lp cp : value).
Hypothesis Hl : record_at s l Swimming [a; d; w; lp; cp].

Lemma swimming_speed :
  evals s (call_method (Some l) "get_mean_speed")
    (spec_swimming_speed lp cp d).
Proof using Hl.
  eapply evals_call; [exact Hl | reflexivity | reflexivity |].
  eapply Swimming_get_mean_speed_at; [exact Hl | reflexivity ..].
Qed.

Lemma swimming_distance :
  evals s (call_method (Some l) "get_distance") (spec_distance a 1.38).
Proof using Hl.
  eapply evals_call; [exact Hl | reflexivity | reflexivity |].
  eapply Swimming_get_distance_at; [exact Hl | reflexivity ..].
Qed.
End SwimmingDispatch.

(** ** Mean speed and calories of every record *)

(** X1. For every Running and SportsWalking record, wherever it lives
    in the store, [get_mean_speed()] is the inherited body: the
    distance [action * 0.65 / 1000] divided by the duration, in
    Python's arithmetic, errors included. *)
Theorem mean_speed_is_distance_over_duration `{Platform}
    (s : state) (l : loc) (c : pyclass) (data : list value)
    (a d w h : value) :
  (c = Running /\ data = [a; d; w]) \/
  (c = SportsWalking /\ data = [a; d; w; h]) ->
  record_at s l c data ->
  call_method (Some l) "get_mean_speed" s
  = (res_bind (spec_distance a 0.65) (fun dist => PyNum.truediv dist d), s).
Proof.
  intros Hc Hl. rewrite <- mean_speed_expr_distance.
  exact (running_like_speed s l c data a d w h Hc Hl).
Qed.

Lemma mean_speed_is_distance_over_duration_witness :
  @call_method sample_platform (Some 0%nat) "get_mean_speed"
    (one_record SportsWalking wlk_data)
  = (res_bind (spec_distance (VInt 9000) 0.65)
       (fun dist => PyNum.truediv dist (VInt 1)),
     one_record SportsWalking wlk_data).
Proof.
  apply (@mean_speed_is_distance_over_duration sample_platform
           (one_record SportsWalking wlk_data) 0%nat SportsWalking wlk_data
           (VInt 9000) (VInt 1) (VInt 75) (VInt 180)).
  - right. split; reflexivity.
  - reflexivity.
Defined.

(** X2. A Running or SportsWalking record whose duration is zero (the
    int 0 or a float zero of either sign) and whose distance can be
    computed: [get_mean_speed()] raises [ZeroDivisionError], and [main]
    raises it too, printing nothing and leaving the store as it was. *)
Theorem zero_duration_raises `{Platform}
    (s : state) (l : loc) (c : pyclass) (data : list value)
    (a d w h dist : value) :
  (c = Running /\ data = [a; d; w]) \/
  (c = SportsWalking /\ data = [a; d; w; h]) ->
  record_at s l c data ->
  zero_number d = true ->
  spec_distance a 0.65 = Ok dist ->
  call_method (Some l) "get_mean_speed" s = (Raise ZeroDivisionError, s) /\
  main (Some l) s = (Raise ZeroDivisionError, s).
Proof.
  intros Hc Hl Hz Hdist.
  assert (Hv : evals s (call_method (Some l) "get_mean_speed")
                 (Raise ZeroDivisionError)).
  { eapply evals_eq; [exact (running_like_speed s l c data a d w h Hc Hl)|].
    rewrite mean_speed_expr_distance, Hdist. cbn [res_bind].
    destruct (spec_distance_is_float _ _ _ Hdist) as [y ->].
    apply truediv_zero. exact Hz. }
  split; [exact Hv|].
  assert (Hd : attr (mk_instance c data) "duration" = Some d)
    by (destruct Hc as [[-> ->] | [-> ->]]; reflexivity).
  pose proof (show_training_info_at s l _ d Hl Hd) as Hs.
  rewrite (running_like_distance s l c data a d w h Hc Hl) in Hs.
  rewrite Hv in Hs. rewrite Hdist in Hs. cbn [fst res_bind] in Hs.
  unfold main, bind. rewrite Hs. reflexivity.
Qed.

Lemma zero_duration_raises_witness :
  @call_method sample_platform (Some 0%nat) "get_mean_speed"
    (one_record Running [VInt 15000; VFloat (-0); VInt 75])
  = (Raise ZeroDivisionError,
     one_record Running [VInt 15000; VFloat (-0); VInt 75]) /\
  @main sample_platform (Some 0%nat)
    (one_record Running [VInt 15000; VFloat (-0); VInt 75])
  = (Raise ZeroDivisionError,
     one_record Running [VInt 15000; VFloat (-0); VInt 75]).
Proof.
  apply (@zero_duration_raises sample_platform
           (one_record Running [VInt 15000; VFloat (-0); VInt 75]) 0%nat
           Running [VInt 15000; VFloat (-0); VInt 75]
           (VInt 15000) (VFloat (-0)) (VInt 75) VNone (VFloat 9.75)).
  - left. split; reflexivity.
  - reflexivity.
  - reflexivity.
  - vm_compute. reflexivity.
Defined.

(** X3. A Swimming record whose duration is zero and whose distance
    and pool length in km can be computed: [get_mean_speed()] raises
    [ZeroDivisionError], and so does [main], printing nothing. *)
Theorem swimming_zero_duration_raises `{Platform}
    (s : state) (l : loc) (a d w lp cp dist total km : value) :
  record_at s l Swimming [a; d; w; lp; cp] ->
  zero_number d = true ->
  spec_distance a 1.38 = Ok dist ->
  PyNum.mul lp cp = Ok total ->
  PyNum.truediv total (VInt 1000) = Ok km ->
  call_method (Some l) "get_mean_speed" s = (Raise ZeroDivisionError, s) /\
  main (Some l) s = (Raise ZeroDivisionError, s).
Proof.
  intros Hl Hz Hdist Ht Hkm.
  assert (Hv : evals s (call_method (Some l) "get_mean_speed")
                 (Raise ZeroDivisionError)).
  { eapply evals_eq; [exact (swimming_speed s l a d w lp cp Hl)|].
    unfold spec_swimming_speed.
    rewrite Ht. cbn [res_bind]. rewrite Hkm. cbn [res_bind].
    destruct (truediv_is_float _ _ _ Hkm) as [y ->].
    apply truediv_zero. exact Hz. }
  split; [exact Hv|].
  assert (Hdi : evals s (call_method (Some l) "get_distance") (Ok dist)).
  { eapply evals_eq; [exact (swimming_distance s l a d w lp cp Hl)|].
    exact Hdist. }
  pose proof (show_training_info_at s l _ d Hl eq_refl) as Hs.
  rewrite Hdi, Hv in Hs. cbn [fst res_bind] in Hs.
  unfold main, bind. rewrite Hs. reflexivity.
Qed.

Lemma swimming_zero_duration_raises_witness :
  @main sample_platform (Some 0%nat)
    (one_record Swimming [VInt 720; VInt 0; VInt 80; VInt 25; VInt 40])
  = (Raise ZeroDivisionError,
     one_record Swimming [VInt 720; VInt 0; VInt 80; VInt 25; VInt 40]).
Proof.
  apply (@swimming_zero_duration_raises sample_platform
           (one_record Swimming [VInt 720; VInt 0; VInt 80; VInt 25; VInt 40])
           0%nat (VInt 720) (VInt 0) (VInt 80) (VInt 25) (VInt 40)
           (VFloat swm_distance) (VInt 1000) (VFloat 1)).
  - reflexivity.
  - reflexivity.
  - vm_compute. reflexivity.
  - reflexivity.
  - vm_compute. reflexivity.
Defined.

(** X4. For every Running record, [get_spent_calories()] is
    [(18 * mean_speed + 1.79) * weight / 1000 * (duration * 60)] with
    the inherited mean speed, evaluated left to right in Python's
    arithmetic; the first operation that fails gives the exception. *)
Theorem running_calories_formula `{Platform}
    (s : state) (l : loc) (a d w : value) :
  record_at s l Running [a; d; w] ->
  call_method (Some l) "get_spent_calories" s
  = (running_calories_expr a d w, s).
Proof.
  intros Hl. eapply evals_call; [exact Hl | reflexivity | reflexivity |].
  apply Running_get_spent_calories_at. exact Hl.
Qed.

Lemma running_calories_formula_witness :
  @call_method sample_platform (Some 0%nat) "get_spent_calories"
    (one_record Running run_data)
  = (running_calories_expr (VInt 15000) (VInt 1) (VInt 75),
     one_record Running run_data).
Proof.
  apply (@running_calories_formula sample_platform
           (one_record Running run_data) 0%nat
           (VInt 15000) (VInt 1) (VInt 75)).
  reflexivity.
Defined.

(** X5. For every SportsWalking record, [get_spent_calories()] is
    [(0.035 * weight + (mean_speed * 0.278)**2 / (height / 100)
      * 0.029 * weight) * (duration * 60)], evaluated left to right in
    Python's arithmetic with the platform's [pow]. *)
Theorem walking_calories_formula `{Platform}
    (s : state) (l : loc) (a d w h : value) :
  record_at s l SportsWalking [a; d; w; h] ->
  call_method (Some l) "get_spent_calories" s
  = (walking_calories_expr a d w h, s).
Proof.
  intros Hl. eapply evals_call; [exact Hl | reflexivity | reflexivity |].
  apply SportsWalking_get_spent_calories_at. exact Hl.
Qed.

Lemma walking_calories_formula_witness :
  @call_method sample_platform (Some 0%nat) "get_spent_calories"
    (one_record SportsWalking wlk_data)
  = (@walking_calories_expr sample_platform
       (VInt 9000) (VInt 1) (VInt 75) (VInt 180),
     one_record SportsWalking wlk_data).
Proof.
  apply (@walking_calories_formula sample_platform
           (one_record SportsWalking wlk_data) 0%nat
           (VInt 9000) (VInt 1) (VInt 75) (VInt 180)).
  reflexivity.
Defined.

(** X6. For every Swimming record, [get_spent_calories()] is
    [(mean_speed + 1.1) * 2 * weight * duration] on the pool speed
    [length_pool * count_pool / 1000 / duration]; the stroke count
    does not enter it, so two Swimming records that differ only in
    [action] burn the same calories. *)
Theorem swimming_calories_formula `{Platform}
    (s s' : state) (l l' : loc) (a a' d w lp cp : value) :
  record_at s l Swimming [a; d; w; lp; cp] ->
  record_at s' l' Swimming [a'; d; w; lp; cp] ->
  call_method (Some l) "get_spent_calories" s
  = (swimming_calories_expr d w lp cp, s) /\
  fst (call_method (Some l) "get_spent_calories" s)
  = fst (call_method (Some l') "get_spent_calories" s').
Proof.
  intros Hl Hl'.
  assert (Hv : forall s0 l0 a0, record_at s0 l0 Swimming [a0; d; w; lp; cp] ->
    call_method (Some l0) "get_spent_calories" s0
    = (swimming_calories_expr d w lp cp, s0)).
  { intros s0 l0 a0 H0.
    eapply evals_call; [exact H0 | reflexivity | reflexivity |].
    eapply Swimming_get_spent_calories_at. exact H0. }
  split; [exact (Hv s l a Hl)|].
  rewrite (Hv s l a Hl), (Hv s' l' a' Hl'). reflexivity.
Qed.

Lemma swimming_calories_formula_witness :
  @call_method sample_platform (Some 0%nat) "get_spent_calories"
    (one_record Swimming swm_data)
  = (swimming_calories_expr (VInt 1) (VInt 80) (VInt 25) (VInt 40),
     one_record Swimming swm_data) /\
  fst (@call_method sample_platform (Some 0%nat) "get_spent_calories"
         (one_record Swimming swm_data))
  = fst (@call_method sample_platform (Some 0%nat) "get_spent_calories"
           (one_record Swimming
              [VInt 1; VInt 1; VInt 80; VInt 25; VInt 40])).
Proof.
  apply (@swimming_calories_formula sample_platform
           (one_record Swimming swm_data)
           (one_record Swimming [VInt 1; VInt 1; VInt 80; VInt 25; VInt 40])
           0%nat 0%nat (VInt 720) (VInt 1) (VInt 1) (VInt 80) (VInt 25)
           (VInt 40)); reflexivity.
Defined.

(** ** The report of a record, and the loop *)

(** X8. Whatever [main] is called on, in whatever state, it either
    prints exactly one line, of the shape of the report template with
    the message's training type in it, and returns; or it raises and
    prints nothing. It never changes a record. *)
Theorem main_prints_one_line_or_raises `{Platform}
    (t : option loc) (s : state) :
  (exists info d dist v cal,
     Training_show_training_info t s = (Ok info, s) /\
     main t s
     = (Ok tt, printed s (report_line (training_type info) d dist v cal)))
  \/ (exists e, main t s = (Raise e, s)).
Proof.
  destruct (main_outcome t s) as [(info & line & Hi & Hf & Hm) | He];
    [left | right; exact He].
  assert (Hg : InfoMessage_get_message info s = (Ok line, s))
    by (unfold InfoMessage_get_message, lift; rewrite Hf; reflexivity).
  apply get_message_inv in Hg as (_ & d & dist & v & cal & ->).
  exists info, d, dist, v, cal. split; assumption.
Qed.

Lemma read_package_cases (wt : string) (data : list value) (s : state) :
  (exists c, dict_training !! wt = Some c /\
             length data = length (fields c) /\
             read_package wt data s
             = (Ok (fresh_ref s), stored s (mk_instance c data))) \/
  (exists c, dict_training !! wt = Some c /\
             length data <> length (fields c) /\
             read_package wt data s = (Raise TypeError, s)) \/
  (dict_training !! wt = None /\
   read_package wt data s = (Ok None, printed s not_found_line)).
Proof.
  unfold read_package. destruct (dict_training !! wt) as [c|].
  - destruct (decide (length data = length (fields c))) as [Hn|Hn].
    + left. exists c. repeat split; [exact Hn|]. apply new_stores, Hn.
    + right; left. exists c. repeat split; [exact Hn|].
      apply new_rejects, Hn.
  - right; right. split; reflexivity.
Qed.

Lemma main_None `{Platform} (s : state) :
  main None s = (Raise AttributeError, s).
Proof. reflexivity. Qed.

(** X10. A run that completes has stored one record per package and
    printed one report line per package, both in input order: the
    record of each package is the one built from its values by the
    class of its code, and its line carries that class's name. In
    particular every code of a completed run is a known one. *)
Theorem completed_run_reports_every_package `{Platform}
    (pkgs : list (string * list value)) (s s' : state) :
  run pkgs s = (Ok tt, s') ->
  exists records lines,
    heap s' = (heap s ++ records)%list /\
    stdout s' = (stdout s ++ lines)%list /\
    Forall2 built_from pkgs records /\
    Forall2 reports pkgs lines.
Proof.
  revert s. induction pkgs as [|[wt data] pkgs IH]; intros s Hr.
  - inversion Hr. exists [], []. rewrite !app_nil_r. repeat split; constructor.
  - rewrite run_cons in Hr. unfold bind at 1 in Hr.
    destruct (read_package_cases wt data s)
      as [(c & Hc & Hn & Hp) | [(c & Hc & Hn & Hp) | (Hc & Hp)]];
      rewrite Hp in Hr.
    + unfold bind at 1 in Hr.
      destruct (main_outcome (fresh_ref s) (stored s (mk_instance c data)))
        as [(info & line & Hi & Hf & Hm) | (e & Hm)];
        rewrite Hm in Hr; [|discriminate].
      apply IH in Hr as (records & lines & Hh & Ho & Hb & Hl).
      exists (mk_instance c data :: records), (line :: lines).
      cbn [heap stdout printed stored] in Hh, Ho.
      rewrite <- !app_assoc in Hh, Ho. repeat split; try assumption.
      * constructor; [exists c; split; [exact Hc | reflexivity] | exact Hb].
      * constructor; [|exact Hl].
        pose proof (show_training_info_type _ _ _ _ _
                      (lookup_stored s (mk_instance c data)) Hi) as Ht.
        assert (Hg : InfoMessage_get_message info
                       (stored s (mk_instance c data))
                     = (Ok line, stored s (mk_instance c data)))
          by (unfold InfoMessage_get_message, lift; rewrite Hf;
              reflexivity).
        apply get_message_inv in Hg as (_ & d & dist & v & cal & ->).
        exists c, d, dist, v, cal. rewrite Ht. split; [exact Hc | reflexivity].
    + discriminate.
    + unfold bind at 1 in Hr. rewrite main_None in Hr. discriminate.
Qed.

Lemma completed_run_reports_every_package_witness :
  exists records lines,
    heap (snd (@run sample_platform packages initial))
    = (heap initial ++ records)%list /\
    stdout (snd (@run sample_platform packages initial))
    = (stdout initial ++ lines)%list /\
    Forall2 built_from packages records /\
    Forall2 reports packages lines.
Proof.
  apply (@completed_run_reports_every_package sample_platform packages
           initial (snd (@run sample_platform packages initial))).
  vm_compute. reflexivity.
Defined.

(** X11. However a run ends, it only appends: the records and the
    output present before it are kept in place, and it adds at most
    one record and at most one line per package. *)
Theorem run_only_appends `{Platform}
    (pkgs : list (string * list value)) (s : state) :
  exists records lines,
    heap (snd (run pkgs s)) = (heap s ++ records)%list /\
    stdout (snd (run pkgs s)) = (stdout s ++ lines)%list /\
    (length records <= length pkgs)%nat /\
    (length lines <= length pkgs)%nat.
Proof.
  revert s. induction pkgs as [|[wt data] pkgs IH]; intros s.
  - exists [], []. rewrite !app_nil_r. repeat split; reflexivity.
  - destruct (read_package_cases wt data s)
      as [(c & Hc & Hn & Hp) | [(c & Hc & Hn & Hp) | (Hc & Hp)]].
    + destruct (main_outcome (fresh_ref s) (stored s (mk_instance c data)))
        as [(info & line & Hi & Hf & Hm) | (e & Hm)].
      * assert (Hrun : run ((wt, data) :: pkgs) s
                       = run pkgs
                           (printed (stored s (mk_instance c data)) line))
          by (rewrite run_cons; unfold bind; rewrite Hp, Hm; reflexivity).
        destruct (IH (printed (stored s (mk_instance c data)) line))
          as (records & lines & Hh & Ho & Hlr & Hll).
        exists (mk_instance c data :: records), (line :: lines).
        rewrite Hrun, Hh, Ho. cbn [heap stdout printed stored length].
        rewrite <- !app_assoc. repeat split; lia.
      * assert (Hrun : run ((wt, data) :: pkgs) s
                       = (Raise e, stored s (mk_instance c data)))
          by (rewrite run_cons; unfold bind; rewrite Hp, Hm; reflexivity).
        exists [mk_instance c data], []. rewrite Hrun.
        cbn [snd heap stdout stored length].
        rewrite app_nil_r. repeat split; lia.
    + assert (Hrun : run ((wt, data) :: pkgs) s = (Raise TypeError, s))
        by (rewrite run_cons; unfold bind; rewrite Hp; reflexivity).
      exists [], []. rewrite Hrun. cbn [snd length]. rewrite !app_nil_r.
      repeat split; lia.
    + assert (Hrun : run ((wt, data) :: pkgs) s
                     = (Raise AttributeError, printed s not_found_line))
        by (rewrite run_cons; unfold bind; rewrite Hp; reflexivity).
      exists [], [not_found_line]. rewrite Hrun.
      cbn [snd heap stdout printed length].
      rewrite app_nil_r. repeat split; lia.
Qed.

(** ** Which records can be reported *)

Lemma mul_float_l (x : float) (w r : value) :
  PyNum.mul (VFloat x) w = Ok r -> is_float r = true.
Proof.
  destruct w as [|b|y]; simpl; [discriminate| |].
  - destruct (PyNum.int_to_float b); [|discriminate].
    intros E; inversion E; reflexivity.
  - intros E; inversion E; reflexivity.
Qed.

Lemma add_float_l (x : float) (w r : value) :
  PyNum.add (VFloat x) w = Ok r -> is_float r = true.
Proof.
  destruct w as [|b|y]; simpl; [discriminate| |].
  - destruct (PyNum.int_to_float b); [|discriminate].
    intros E; inversion E; reflexivity.
  - intros E; inversion E; reflexivity.
Qed.

Lemma is_float_inv (v : value) : is_float v = true -> exists x, v = VFloat x.
Proof. destruct v; try discriminate. eauto. Qed.

Lemma truediv_float (u v r : value) :
  PyNum.truediv u v = Ok r -> is_float r = true.
Proof. intros E. destruct (truediv_is_float u v r E) as [y ->]. reflexivity. Qed.

Lemma truediv_renderable (y : float) (d r : value) :
  PyNum.truediv (VFloat y) d = Ok r -> renderable d = true.
Proof.
  unfold renderable, metric_float. destruct d as [|b|x]; simpl;
    [discriminate| |reflexivity].
  destruct (PyNum.int_to_float b); [reflexivity | discriminate].
Qed.

Lemma is_float_renderable (v : value) : is_float v = true -> renderable v = true.
Proof. destruct v; try discriminate. reflexivity. Qed.

Lemma format_succeeds `{Platform} (v : value) :
  succeeds (PyFormat.format_value ".3f" (PyFormat.AVal v)) = renderable v.
Proof.
  unfold renderable, metric_float, PyFormat.format_value.
  change (String.eqb ".3f" EmptyString) with false.
  change (String.eqb ".3f" ".3f") with true. cbv iota.
  destruct v as [|z|x]; [reflexivity| |reflexivity].
  destruct (PyNum.int_to_float z); reflexivity.
Qed.

(** Peeling a chain of operations that has returned a value. *)
Ltac peel H :=
  repeat match type of H with
         | res_bind ?r _ = Ok _ =>
             let E := fresh "E" in
             destruct r eqn:E; [cbn [res_bind] in H | discriminate H]
         end.

Lemma mean_speed_expr_ok (a d v : value) :
  mean_speed_expr a d = Ok v ->
  is_float v = true /\ renderable d = true /\
  exists dist, spec_distance a 0.65 = Ok dist /\ is_float dist = true.
Proof.
  intros Hv. rewrite mean_speed_expr_distance in Hv. peel Hv.
  match goal with
  | E : spec_distance _ _ = Ok ?dist |- _ =>
      destruct (spec_distance_is_float _ _ _ E) as [y ->]
  end.
  split; [eapply truediv_float; exact Hv|].
  split; [eapply truediv_renderable; exact Hv|].
  eexists. split; reflexivity.
Qed.

Lemma swimming_speed_ok (lp cp d v : value) :
  spec_swimming_speed lp cp d = Ok v ->
  is_float v = true /\ renderable d = true.
Proof.
  unfold spec_swimming_speed. intros Hv. peel Hv.
  match goal with
  | E : PyNum.truediv _ (VInt 1000) = Ok ?km |- _ =>
      destruct (truediv_is_float _ _ _ E) as [y ->]
  end.
  split; [eapply truediv_float; exact Hv | eapply truediv_renderable; exact Hv].
Qed.

Lemma running_calories_float (a d w cal : value) :
  running_calories_expr a d w = Ok cal -> is_float cal = true.
Proof.
  unfold running_calories_expr. intros Hc. peel Hc.
  match goal with
  | E : PyNum.truediv _ (VInt 1000) = Ok ?q |- _ =>
      destruct (truediv_is_float _ _ _ E) as [y ->]
  end.
  eapply mul_float_l. exact Hc.
Qed.

Lemma walking_calories_float `{Platform} (a d w h cal : value) :
  walking_calories_expr a d w h = Ok cal -> is_float cal = true.
Proof.
  unfold walking_calories_expr. intros Hc. peel Hc.
  match goal with
  | E : PyNum.mul (VFloat 0.035) _ = Ok ?t1 |- _ =>
      destruct (is_float_inv _ (mul_float_l _ _ _ E)) as [x1 ->]
  end.
  match goal with
  | E : PyNum.add (VFloat _) _ = Ok ?sum |- _ =>
      destruct (is_float_inv _ (add_float_l _ _ _ E)) as [x2 ->]
  end.
  eapply mul_float_l. exact Hc.
Qed.

Lemma swimming_calories_float (d w lp cp cal : value) :
  swimming_calories_expr d w lp cp = Ok cal -> is_float cal = true.
Proof.
  unfold swimming_calories_expr. intros Hc. peel Hc.
  match goal with
  | E : spec_swimming_speed _ _ _ = Ok ?v |- _ =>
      destruct (is_float_inv _ (proj1 (swimming_speed_ok _ _ _ _ E)))
        as [x0 ->]
  end.
  match goal with
  | E : PyNum.add (VFloat _) _ = Ok ?sum |- _ =>
      destruct (is_float_inv _ (add_float_l _ _ _ E)) as [x1 ->]
  end.
  match goal with
  | E : PyNum.mul (VFloat _) (VInt 2) = Ok ?sm |- _ =>
      destruct (is_float_inv _ (mul_float_l _ _ _ E)) as [x2 ->]
  end.
  match goal with
  | E : PyNum.mul (VFloat _) w = Ok ?smw |- _ =>
      destruct (is_float_inv _ (mul_float_l _ _ _ E)) as [x3 ->]
  end.
  eapply mul_float_l. exact Hc.
Qed.

Section BaseDispatch.
Context `{Platform} (s : state) (l : loc) (a d w : value).
Hypothesis Hl : record_at s l Training [a; d; w].

Lemma base_distance :
  evals s (call_method (Some l) "get_distance") (spec_distance a 0.65).
Proof using Hl.
  eapply evals_call; [exact Hl | reflexivity | reflexivity |].
  eapply Training_get_distance_at; [exact Hl | reflexivity ..].
Qed.

Lemma base_speed :
  evals s (call_method (Some l) "get_mean_speed") (mean_speed_expr a d).
Proof using Hl.
  eapply evals_call; [exact Hl | reflexivity | reflexivity |].
  eapply Training_get_mean_speed_at; [exact Hl | reflexivity ..].
Qed.

Lemma base_calories :
  evals s (call_method (Some l) "get_spent_calories") (Ok VNone).
Proof using Hl.
  eapply evals_call; [exact Hl | reflexivity | reflexivity |].
  reflexivity.
Qed.
End BaseDispatch.

Lemma fields_NoDup (c : pyclass) : NoDup (fields c).
Proof.
  destruct c; apply (bool_decide_unpack _); vm_compute; exact I.
Qed.

Lemma attr_field (c : pyclass) (data : list value) (i : nat)
    (name : string) (v : value) :
  length data = length (fields c) ->
  fields c !! i = Some name ->
  data !! i = Some v ->
  attr (mk_instance c data) name = Some v.
Proof.
  intros Hn Hf Hd. unfold attr, mk_instance. cbn [inst_dict].
  assert (Hm : (list_to_map (zip (fields c) data) : gmap string value)
               !! name = Some v).
  { apply elem_of_list_to_map_1.
    - rewrite fst_zip by lia. apply fields_NoDup.
    - apply (list_elem_of_lookup_2 _ i).
      apply lookup_zip_with_Some. exists name, v. auto. }
  rewrite Hm. reflexivity.
Qed.

(** X12. [read_package] with a known code and a value list of the
    right length builds the record by position: the [i]-th value of
    the list is what the [i]-th field of the class reads afterwards,
    through the new reference. *)
Theorem read_package_assigns_by_position
    (wt : string) (c : pyclass) (data : list value) (s : state)
    (i : nat) (name : string) (v : value) :
  dict_training !! wt = Some c ->
  length data = length (fields c) ->
  fields c !! i = Some name ->
  data !! i = Some v ->
  read_package wt data s
  = (Ok (fresh_ref s), stored s (mk_instance c data)) /\
  getattr (fresh_ref s) name (stored s (mk_instance c data))
  = (Ok v, stored s (mk_instance c data)).
Proof.
  intros Hc Hn Hf Hd. split.
  - unfold read_package. rewrite Hc. apply new_stores. exact Hn.
  - eapply evals_getattr; [apply lookup_stored|].
    eapply attr_field; eassumption.
Qed.

Lemma read_package_assigns_by_position_witness :
  read_package "WLK" wlk_data initial
  = (Ok (fresh_ref initial), stored initial (mk_instance SportsWalking wlk_data))
  /\
  getattr (fresh_ref initial) "height"
    (stored initial (mk_instance SportsWalking wlk_data))
  = (Ok (VInt 180), stored initial (mk_instance SportsWalking wlk_data)).
Proof.
  apply (read_package_assigns_by_position "WLK" SportsWalking wlk_data
           initial 3%nat "height" (VInt 180)); reflexivity.
Defined.

(** X13. A plain [Training] record can never be reported: [main]
    always raises on it and prints nothing. When its mean speed can be
    computed, the exception is the [TypeError] of formatting the [None]
    that the base [get_spent_calories] returned. *)
Theorem base_record_is_never_reported `{Platform}
    (s : state) (l : loc) (a d w : value) :
  record_at s l Training [a; d; w] ->
  (exists e, main (Some l) s = (Raise e, s)) /\
  (forall v, mean_speed_expr a d = Ok v ->
             main (Some l) s = (Raise TypeError, s)).
Proof.
  intros Hl.
  pose proof (show_training_info_at s l _ d Hl eq_refl) as Hs.
  rewrite (base_distance s l a d w Hl), (base_speed s l a d w Hl),
    (base_calories s l a d w Hl) in Hs.
  cbn [fst inst_class mk_instance] in Hs.
  assert (Hok : forall v, mean_speed_expr a d = Ok v ->
                          main (Some l) s = (Raise TypeError, s)).
  { intros v Hv.
    destruct (mean_speed_expr_ok a d v Hv) as (Hfv & Hrd & dist & Hdist & Hfd).
    rewrite Hdist, Hv in Hs. cbn [res_bind] in Hs.
    unfold main, bind. rewrite Hs.
    unfold InfoMessage_get_message, lift. rewrite format_MESSAGE.
    cbn [duration distance speed calories].
    rewrite (format_renderable d Hrd).
    rewrite (format_renderable dist (is_float_renderable _ Hfd)).
    rewrite (format_renderable v (is_float_renderable _ Hfv)).
    reflexivity. }
  split; [|exact Hok].
  destruct (mean_speed_expr a d) as [v|e] eqn:Hv; [eauto|].
  unfold main, bind. rewrite Hs.
  destruct (spec_distance a 0.65); cbn [res_bind]; eauto.
Qed.

Lemma base_record_is_never_reported_witness :
  (exists e,
     @main sample_platform (Some 0%nat)
       (one_record Training [VInt 1; VInt 1; VInt 1])
     = (Raise e, one_record Training [VInt 1; VInt 1; VInt 1])) /\
  (forall v, mean_speed_expr (VInt 1) (VInt 1) = Ok v ->
     @main sample_platform (Some 0%nat)
       (one_record Training [VInt 1; VInt 1; VInt 1])
     = (Raise TypeError, one_record Training [VInt 1; VInt 1; VInt 1])).
Proof.
  apply (@base_record_is_never_reported sample_platform
           (one_record Training [VInt 1; VInt 1; VInt 1]) 0%nat
           (VInt 1) (VInt 1) (VInt 1)).
  reflexivity.
Defined.

Lemma variant_metrics `{Platform} (s : state) (l : loc) (c : pyclass)
    (data : list value) :
  concrete c = true ->
  length data = length (fields c) ->
  record_at s l c data ->
  exists d rd rv rc,
    attr (mk_instance c data) "duration" = Some d /\
    evals s (call_method (Some l) "get_distance") rd /\
    evals s (call_method (Some l) "get_mean_speed") rv /\
    evals s (call_method (Some l) "get_spent_calories") rc /\
    (forall x, rd = Ok x -> is_float x = true) /\
    (forall x, rv = Ok x -> is_float x = true /\ renderable d = true) /\
    (forall x, rc = Ok x -> is_float x = true).
Proof.
  intros Hc Hn Hl. destruct c; [discriminate Hc| | |].
  - destruct data as [|a [|d [|w [|? ?]]]]; try discriminate Hn.
    exists d, (spec_distance a 0.65), (mean_speed_expr a d),
      (running_calories_expr a d w).
    split; [reflexivity|].
    split; [apply (running_like_distance s l Running [a; d; w] a d w VNone);
            [left; split; reflexivity | exact Hl]|].
    split; [apply (running_like_speed s l Running [a; d; w] a d w VNone);
            [left; split; reflexivity | exact Hl]|].
    split; [eapply evals_call; [exact Hl | reflexivity | reflexivity |];
            apply Running_get_spent_calories_at; exact Hl|].
    split; [intros x Hx;
            destruct (spec_distance_is_float _ _ _ Hx) as [y ->];
            reflexivity|].
    split; [intros x Hx;
            destruct (mean_speed_expr_ok _ _ _ Hx) as (? & ? & _);
            split; assumption|].
    intros x Hx. eapply running_calories_float. exact Hx.
  - destruct data as [|a [|d [|w [|h [|? ?]]]]]; try discriminate Hn.
    exists d, (spec_distance a 0.65), (mean_speed_expr a d),
      (walking_calories_expr a d w h).
    split; [reflexivity|].
    split; [apply (running_like_distance s l SportsWalking [a; d; w; h] a d w h);
            [right; split; reflexivity | exact Hl]|].
    split; [apply (running_like_speed s l SportsWalking [a; d; w; h] a d w h);
            [right; split; reflexivity | exact Hl]|].
    split; [eapply evals_call; [exact Hl | reflexivity | reflexivity |];
            apply SportsWalking_get_spent_calories_at; exact Hl|].
    split; [intros x Hx;
            destruct (spec_distance_is_float _ _ _ Hx) as [y ->];
            reflexivity|].
    split; [intros x Hx;
            destruct (mean_speed_expr_ok _ _ _ Hx) as (? & ? & _);
            split; assumption|].
    intros x Hx. eapply walking_calories_float. exact Hx.
  - destruct data as [|a [|d [|w [|lp [|cp [|? ?]]]]]];
      try discriminate Hn.
    exists d, (spec_distance a 1.38), (spec_swimming_speed lp cp d),
      (swimming_calories_expr d w lp cp).
    split; [reflexivity|].
    split; [exact (swimming_distance s l a d w lp cp Hl)|].
    split; [exact (swimming_speed s l a d w lp cp Hl)|].
    split; [eapply evals_call; [exact Hl | reflexivity | reflexivity |];
            eapply Swimming_get_spent_calories_at; exact Hl|].
    split; [intros x Hx;
            destruct (spec_distance_is_float _ _ _ Hx) as [y ->];
            reflexivity|].
    split; [intros x Hx; apply (swimming_speed_ok _ _ _ _ Hx)|].
    intros x Hx. eapply swimming_calories_float. exact Hx.
Qed.

(** X14. For a record of one of the three classes [read_package]
    builds, once [show_training_info] has returned a message the report
    cannot fail: distance, speed and calories are floats, the duration
    is a number [.3f] accepts, and [main] prints the line with the
    class name and the four rendered metrics. *)
Theorem variant_record_is_reported `{Platform}
    (s s' : state) (l : loc) (c : pyclass) (data : list value)
    (info : InfoMessage) :
  concrete c = true ->
  length data = length (fields c) ->
  record_at s l c data ->
  Training_show_training_info (Some l) s = (Ok info, s') ->
  is_float (distance info) = true /\
  is_float (speed info) = true /\
  is_float (calories info) = true /\
  renderable (duration info) = true /\
  main (Some l) s
  = (Ok tt,
     printed s
       (report_line (class_name c) (metric_f3 (duration info))
          (metric_f3 (distance info)) (metric_f3 (speed info))
          (metric_f3 (calories info)))).
Proof.
  intros Hc Hn Hl Hi.
  destruct (variant_metrics s l c data Hc Hn Hl)
    as (d & rd & rv & rc & Hd & Hrd & Hrv & Hrc & Fd & Fv & Fc).
  pose proof (show_training_info_at s l _ d Hl Hd) as Hs.
  rewrite Hrd, Hrv, Hrc in Hs. cbn [fst inst_class mk_instance] in Hs.
  rewrite Hs in Hi. inversion Hi as [[Hr Hst]]. clear Hi. subst s'.
  destruct rd as [dist|]; [|discriminate Hr].
  destruct rv as [v|]; [|discriminate Hr].
  destruct rc as [cal|]; [|discriminate Hr].
  cbn [res_bind] in Hr, Hs. inversion Hr; subst info. clear Hr.
  cbn [duration distance speed calories].
  pose proof (Fd dist eq_refl) as Hfd.
  destruct (Fv v eq_refl) as [Hfv Hrdur].
  pose proof (Fc cal eq_refl) as Hfc.
  repeat (split; [assumption|]).
  eapply main_prints; [exact Hs|].
  rewrite format_MESSAGE. cbn [duration distance speed calories training_type].
  rewrite (format_renderable d Hrdur).
  rewrite (format_renderable dist (is_float_renderable _ Hfd)).
  rewrite (format_renderable v (is_float_renderable _ Hfv)).
  rewrite (format_renderable cal (is_float_renderable _ Hfc)).
  reflexivity.
Qed.

Lemma variant_record_is_reported_witness :
  @main sample_platform (Some 0%nat) (one_record Swimming swm_data)
  = (Ok tt,
     printed (one_record Swimming swm_data)
       (report_line "Swimming" "1.000" "0.994" "1.000" "336.000")).
Proof.
  pose proof (@variant_record_is_reported sample_platform
    (one_record Swimming swm_data) (one_record Swimming swm_data) 0%nat
    Swimming swm_data
    {| training_type := "Swimming"; duration := VInt 1;
       distance := VFloat swm_distance; speed := VFloat 1;
       calories := VFloat 336 |}
    eq_refl eq_refl eq_refl) as W.
  specialize (W ltac:(vm_compute; reflexivity)).
  destruct W as (_ & _ & _ & _ & W).
  eapply eq_trans; [exact W|]. vm_compute. reflexivity.
Defined.

(** X15. [get_message] returns a line exactly when all four metrics
    are numbers [.3f] accepts (a float, or an int that converts to
    one); with [None] or an int too large for a float among them it
    raises. It never changes the state. *)
Theorem get_message_succeeds_iff_renderable `{Platform}
    (m : InfoMessage) (s : state) :
  succeeds (fst (InfoMessage_get_message m s))
  = (renderable (duration m) && renderable (distance m)
     && renderable (speed m) && renderable (calories m))%bool /\
  snd (InfoMessage_get_message m s) = s.
Proof.
  unfold InfoMessage_get_message, lift. cbn [fst snd].
  split; [|reflexivity].
  rewrite format_MESSAGE, <- !format_succeeds.
  destruct (PyFormat.format_value ".3f" (PyFormat.AVal (duration m)));
    destruct (PyFormat.format_value ".3f" (PyFormat.AVal (distance m)));
    destruct (PyFormat.format_value ".3f" (PyFormat.AVal (speed m)));
    destruct (PyFormat.format_value ".3f" (PyFormat.AVal (calories m)));
    reflexivity.
Qed.

(** ** The sign of a distance *)

Lemma shr_1_nonneg (mrs : shr_record) :
  (0 <= shr_m mrs)%Z -> (0 <= shr_m (shr_1 mrs))%Z.
Proof.
  destruct mrs as [m r t]. cbn [shr_m]. unfold shr_1.
  destruct m as [|[p|p|]|p]; cbn [shr_m]; lia.
Qed.

Lemma iter_pos_shr_1_nonneg (p : positive) (mrs : shr_record) :
  (0 <= shr_m mrs)%Z -> (0 <= shr_m (SpecFloat.iter_pos shr_1 p mrs))%Z.
Proof.
  revert mrs. induction p as [p IH|p IH|]; intros mrs Hm; cbn [SpecFloat.iter_pos].
  - apply IH, IH, shr_1_nonneg, Hm.
  - apply IH, IH, Hm.
  - apply shr_1_nonneg, Hm.
Qed.

Lemma shr_fexp_nonneg (m e : Z) (lx : location) :
  (0 <= m)%Z -> (0 <= shr_m (fst (shr_fexp prec emax m e lx)))%Z.
Proof.
  intros Hm. unfold shr_fexp, shr.
  assert (H0 : (0 <= shr_m (shr_record_of_loc m lx))%Z)
    by (destruct lx as [|[]]; exact Hm).
  destruct (_ - e)%Z; cbn [fst]; [exact H0 | | exact H0].
  apply iter_pos_shr_1_nonneg, H0.
Qed.

Lemma round_nearest_even_nonneg (m : Z) (lx : location) :
  (0 <= m)%Z -> (0 <= round_nearest_even m lx)%Z.
Proof.
  intros Hm. unfold round_nearest_even.
  destruct lx as [|[]]; try destruct (Z.even m); lia.
Qed.

Lemma binary_round_aux_nonneg (mx ex : Z) (lx : location) :
  (0 <= mx)%Z -> nonneg_sf (binary_round_aux prec emax false mx ex lx) = true.
Proof.
  intros Hm. unfold binary_round_aux.
  pose proof (shr_fexp_nonneg mx ex lx Hm) as H1.
  destruct (shr_fexp prec emax mx ex lx) as [mrs' e']. cbn [fst] in H1.
  pose proof (shr_fexp_nonneg
                (round_nearest_even (shr_m mrs') (loc_of_shr_record mrs'))
                e' loc_Exact
                (round_nearest_even_nonneg _ _ H1)) as H2.
  destruct (shr_fexp prec emax _ e' loc_Exact) as [mrs'' e'']. cbn [fst] in H2.
  destruct (shr_m mrs'') as [|m|m]; [reflexivity| |lia].
  destruct (Z.leb e'' (emax - prec)); reflexivity.
Qed.

Lemma binary_round_nonneg (mx : positive) (ex : Z) :
  nonneg_sf (binary_round prec emax false mx ex) = true.
Proof.
  unfold binary_round. destruct (shl_align mx ex _) as [mz ez].
  apply binary_round_aux_nonneg. lia.
Qed.

Lemma binary_normalize_nonneg (m e : Z) :
  (0 <= m)%Z -> nonneg_sf (binary_normalize prec emax m e false) = true.
Proof.
  intros Hm. unfold binary_normalize.
  destruct m as [|p|p]; [reflexivity | apply binary_round_nonneg | lia].
Qed.

Lemma SFldexp_nonneg (f : spec_float) (e : Z) :
  nonneg_sf f = true -> nonneg_sf (SFldexp prec emax f e) = true.
Proof.
  destruct f as [[]|[]| |[] m ex]; try discriminate; intros _;
    try reflexivity.
  apply binary_round_nonneg.
Qed.

Lemma SF2Prim_nonneg (sf : spec_float) :
  nonneg_sf sf = true -> nonneg_sf (Prim2SF (SF2Prim sf)) = true.
Proof.
  destruct sf as [[]|[]| |[] m e]; try discriminate; intros _.
  - vm_compute. reflexivity.
  - vm_compute. reflexivity.
  - unfold SF2Prim, FloatOps.Z.ldexp.
    rewrite ldshiftexp_spec, of_uint63_spec.
    apply SFldexp_nonneg, binary_normalize_nonneg.
    apply Uint63.to_Z_bounded.
Qed.

Lemma SFmul_nonneg (x : spec_float) (my : positive) (ey : Z) :
  nonneg_sf x = true ->
  nonneg_sf (SF64mul x (S754_finite false my ey)) = true.
Proof.
  destruct x as [[]|[]| |[] mx ex]; try discriminate; intros _;
    try reflexivity.
  unfold SF64mul, SFmul. cbn [xorb]. apply binary_round_aux_nonneg. lia.
Qed.

Lemma SFdiv_nonneg (x : spec_float) (my : positive) (ey : Z) :
  nonneg_sf x = true ->
  nonneg_sf (SF64div x (S754_finite false my ey)) = true.
Proof.
  destruct x as [[]|[]| |[] mx ex]; try discriminate; intros _;
    try reflexivity.
  unfold SF64div, SFdiv, SFdiv_core_binary. cbn [xorb].
  set (sh := (_ - _ - _)%Z).
  set (m' := match sh with
             | Zpos _ => Z.shiftl (Zpos mx) sh
             | Z0 => Zpos mx
             | Zneg _ => Z0
             end).
  assert (Hm' : (0 <= m')%Z).
  { unfold m'. destruct sh; [lia | | lia].
    apply Z.shiftl_nonneg. lia. }
  pose proof (Z.div_pos m' (Zpos my) Hm' ltac:(lia)) as Hq.
  unfold Z.div in Hq.
  destruct (Z.div_eucl m' (Zpos my)) as [q r].
  apply binary_round_aux_nonneg. exact Hq.
Qed.

Lemma leb_nonneg (x : float) :
  nonneg_sf (Prim2SF x) = true -> (0 <=? x)%float = true.
Proof.
  rewrite leb_spec.
  change (Prim2SF 0) with (S754_zero false).
  destruct (Prim2SF x) as [[]|[]| |[] m e]; try discriminate; reflexivity.
Qed.

Lemma scaled_nonneg (x0 k : float) (mk : positive) (ek : Z) :
  nonneg_sf (Prim2SF x0) = true ->
  Prim2SF k = S754_finite false mk ek ->
  (0 <=? x0 * k / 1000)%float = true.
Proof.
  intros H0 Hk. apply leb_nonneg. rewrite div_spec, mul_spec, Hk.
  change (Prim2SF 1000) with (S754_finite false 8796093022208000 (-43)).
  apply SFdiv_nonneg, SFmul_nonneg, H0.
Qed.

Lemma int_to_float_nonneg (a : Z) (x : float) :
  (0 <= a)%Z -> PyNum.int_to_float a = Ok x ->
  nonneg_sf (Prim2SF x) = true.
Proof.
  intros Ha. unfold PyNum.int_to_float.
  pose proof (binary_normalize_nonneg a 0 Ha) as Hn.
  destruct (binary_normalize prec emax a 0 false) as [sg|sg| |sg m e] eqn:En;
    try discriminate; intros E;
    apply (f_equal (fun r => match r with Ok y => y | Raise _ => x end)) in E;
    cbv beta iota in E; rewrite <- E;
    apply SF2Prim_nonneg; exact Hn.
Qed.

Lemma int_to_float_error (a : Z) (e : exn) :
  PyNum.int_to_float a = Raise e -> e = OverflowError.
Proof.
  unfold PyNum.int_to_float.
  destruct (binary_normalize prec emax a 0 false); try discriminate.
  intros E. injection E as <-. reflexivity.
Qed.

Lemma distance_of_count (a : Z) (k : float) :
  spec_distance (VInt a) k
  = res_bind (PyNum.int_to_float a)
      (fun x => Ok (VFloat (x * k / 1000)%float)).
Proof.
  unfold spec_distance, PyNum.mul.
  destruct (PyNum.int_to_float a) as [x|e]; [|reflexivity].
  reflexivity.
Qed.

(** ** Which integers convert to a float *)

Lemma digits2_pos_bounds (p : positive) :
  2 ^ (Zpos (digits2_pos p) - 1) <= Zpos p < 2 ^ Zpos (digits2_pos p).
Proof.
  induction p as [p IH|p IH|]; cbn [digits2_pos].
  - rewrite Pos2Z.inj_succ, (Pos2Z.inj_xI p).
    replace (Z.succ (Zpos (digits2_pos p)) - 1)
      with (Z.succ (Zpos (digits2_pos p) - 1)) by lia.
    rewrite !Z.pow_succ_r by lia.
    generalize dependent (2 ^ (Zpos (digits2_pos p) - 1)).
    generalize dependent (2 ^ Zpos (digits2_pos p)). intros; lia.
  - rewrite Pos2Z.inj_succ, (Pos2Z.inj_xO p).
    replace (Z.succ (Zpos (digits2_pos p)) - 1)
      with (Z.succ (Zpos (digits2_pos p) - 1)) by lia.
    rewrite !Z.pow_succ_r by lia.
    generalize dependent (2 ^ (Zpos (digits2_pos p) - 1)).
    generalize dependent (2 ^ Zpos (digits2_pos p)). intros; lia.
  - cbn. lia.
Qed.

Lemma digits2_pos_unique (p : positive) (d : Z) :
  0 < d -> 2 ^ (d - 1) <= Zpos p < 2 ^ d -> Zpos (digits2_pos p) = d.
Proof.
  intros Hd Hp. pose proof (digits2_pos_bounds p) as Hb.
  set (d' := Zpos (digits2_pos p)) in *.
  assert (Hd' : 0 < d') by (unfold d'; lia).
  destruct (Z.lt_trichotomy d' d) as [Hlt|[Heq|Hgt]]; [|exact Heq|].
  - pose proof (Z.pow_le_mono_r 2 d' (d - 1) ltac:(lia) ltac:(lia)). lia.
  - pose proof (Z.pow_le_mono_r 2 d (d' - 1) ltac:(lia) ltac:(lia)). lia.
Qed.

Lemma digits2_pos_shift (p k : positive) :
  Zpos (digits2_pos (Pos.iter xO p k)) = Zpos (digits2_pos p) + Zpos k.
Proof.
  induction k as [|k IH] using Pos.peano_ind.
  - cbn [Pos.iter digits2_pos]. lia.
  - rewrite Pos.iter_succ. cbn [digits2_pos]. lia.
Qed.

Lemma shr_1_inv (M n : Z) (R : shr_record) :
  0 <= n -> shr_inv M n R -> shr_inv M (n + 1) (shr_1 R).
Proof.
  intros Hn (rest & Hr & Hs & Hm & H0). destruct R as [m r s].
  unfold shr_inv. cbn [shr_m shr_r shr_s] in *.
  replace (n + 1 + 1) with (Z.succ (Z.succ n)) by lia.
  replace (n + 1) with (Z.succ n) in * by lia.
  rewrite !Z.pow_succ_r by lia. rewrite Z.pow_succ_r in Hm by lia.
  pose proof (Z.pow_pos_nonneg 2 n ltac:(lia) Hn) as HP.
  set (P := 2 ^ n) in *. clearbody P.
  exists (Z.b2z r * P + rest).
  assert (Hs' : (r || s)%bool = true <-> 0 < Z.b2z r * P + rest).
  { destruct Hs as [Hs1 Hs2].
    destruct r, s; cbn [orb Z.b2z]; split; intros Hx;
      try reflexivity; try discriminate Hx; try lia;
      try (specialize (Hs1 eq_refl); lia);
      try (apply Hs2; lia). }
  unfold shr_1.
  destruct m as [|[p|p|]|p]; [| | | |exfalso; lia];
    cbn [shr_m shr_r shr_s Z.b2z];
    (split; [destruct r; cbn [Z.b2z]; lia|]);
    (split; [exact Hs'|]); (split; [|lia]).
  - lia.
  - rewrite (Pos2Z.inj_xI p) in Hm. lia.
  - rewrite (Pos2Z.inj_xO p) in Hm. lia.
  - lia.
Qed.

Lemma iter_shr_1_inv (p : positive) (M n : Z) (R : shr_record) :
  0 <= n -> shr_inv M n R ->
  shr_inv M (n + Zpos p) (SpecFloat.iter_pos shr_1 p R).
Proof.
  revert n R. induction p as [p IH|p IH|]; intros n R Hn HR;
    cbn [SpecFloat.iter_pos].
  - replace (n + Zpos p~1) with (n + 1 + Zpos p + Zpos p) by lia.
    apply IH; [lia|]. apply IH; [lia|]. apply shr_1_inv; assumption.
  - replace (n + Zpos p~0) with (n + Zpos p + Zpos p) by lia.
    apply IH; [lia|]. apply IH; assumption.
  - apply shr_1_inv; assumption.
Qed.

Lemma shr_fexp_53 (mp : positive) (e : Z) :
  Zpos (digits2_pos mp) = 53 -> -1074 <= e ->
  shr_fexp prec emax (Zpos mp) e loc_Exact
  = ({| shr_m := Zpos mp; shr_r := false; shr_s := false |}, e).
Proof.
  intros Hd He. unfold shr_fexp, Zdigits2. rewrite Hd.
  unfold fexp, emin, prec, emax.
  replace (Z.max (53 + e - 53) (3 - 1024 - 53) - e) with 0 by lia.
  reflexivity.
Qed.

Lemma shr_fexp_54 (e : Z) :
  -1074 <= e ->
  shr_fexp prec emax 9007199254740992 e loc_Exact
  = ({| shr_m := 4503599627370496; shr_r := false; shr_s := false |},
     e + 1).
Proof.
  intros He. unfold shr_fexp.
  change (Zdigits2 9007199254740992) with 54.
  unfold fexp, emin, prec, emax.
  replace (Z.max (54 + e - 53) (3 - 1024 - 53) - e) with 1 by lia.
  reflexivity.
Qed.

Lemma round_nearest_even_cases (q : Z) (r s : bool) :
  let m' := round_nearest_even q
              (loc_of_shr_record {| shr_m := q; shr_r := r; shr_s := s |}) in
  q <= m' <= q + 1 /\
  (m' = q + 1 -> r = true) /\
  (r = true -> Z.even q = false -> m' = q + 1).
Proof.
  cbn [loc_of_shr_record]. destruct r, s; cbn [round_nearest_even].
  - repeat split; intros; try reflexivity; lia.
  - destruct (Z.even q); repeat split; intros;
      try reflexivity; try discriminate; lia.
  - repeat split; intros; try discriminate; lia.
  - repeat split; intros; try discriminate; lia.
Qed.

Lemma normalize_int_outcome (p : positive) :
  ((exists m e,
      binary_normalize prec emax (Zpos p) 0 false = S754_finite false m e) /\
   Zpos p < float_limit) \/
  (binary_normalize prec emax (Zpos p) 0 false = S754_infinity false /\
   float_limit <= Zpos p).
Proof.
  unfold binary_normalize, binary_round.
  pose proof (digits2_pos_bounds p) as Hb.
  assert (Hf : fexp prec emax (Zpos (digits2_pos p) + 0)
               = Zpos (digits2_pos p) - 53)
    by (unfold fexp, emin, prec, emax; lia).
  rewrite Hf. unfold shl_align.
  assert (H53 : 9007199254740992 < float_limit)
    by (vm_compute; reflexivity).
  destruct (Zpos (digits2_pos p) - 53 - 0) as [|k|k] eqn:Ek.
  - (* exactly 53 bits *)
    assert (Hd : Zpos (digits2_pos p) = 53) by lia.
    unfold binary_round_aux. rewrite (shr_fexp_53 p 0 Hd) by lia.
    cbn [shr_m loc_of_shr_record round_nearest_even].
    rewrite (shr_fexp_53 p 0 Hd) by lia. cbn [shr_m].
    left. split; [eexists _, _; reflexivity|].
    rewrite Hd in Hb. change (2 ^ 53) with 9007199254740992 in Hb. lia.
  - (* more than 53 bits: the low bits are rounded away *)
    set (n := Zpos k) in *.
    assert (Hn : 0 < n) by (unfold n; lia).
    assert (Hd : Zpos (digits2_pos p) = n + 53) by lia.
    rewrite Hd in Hb.
    replace (n + 53 - 1) with (52 + n) in Hb by lia.
    replace (n + 53) with (53 + n) in Hb by lia.
    rewrite !Z.pow_add_r in Hb by lia.
    change (2 ^ 52) with 4503599627370496 in Hb.
    change (2 ^ 53) with 9007199254740992 in Hb.
    unfold binary_round_aux.
    assert (E1 : shr_fexp prec emax (Zpos p) 0 loc_Exact
                 = (SpecFloat.iter_pos shr_1 k
                      {| shr_m := Zpos p; shr_r := false; shr_s := false |},
                    n)).
    { unfold shr_fexp, Zdigits2. rewrite Hf.
      replace (Zpos (digits2_pos p) - 53 - 0) with (Zpos k) by lia.
      reflexivity. }
    rewrite E1.
    assert (H0 : shr_inv (Zpos p) 0
                   {| shr_m := Zpos p; shr_r := false; shr_s := false |}).
    { exists 0. cbn [shr_m shr_r shr_s Z.b2z].
      change (2 ^ 0) with 1. change (2 ^ (0 + 1)) with 2.
      repeat split; intros; try discriminate; lia. }
    pose proof (iter_shr_1_inv k _ 0 _ ltac:(lia) H0) as Hinv.
    change (0 + Zpos k) with n in Hinv.
    destruct (SpecFloat.iter_pos shr_1 k _) as [q r s].
    destruct Hinv as (rest & Hr & _ & Hm & Hq).
    cbn [shr_m shr_r shr_s] in Hm, Hq |- *.
    rewrite (Z.pow_add_r 2 n 1) in Hm by lia. change (2 ^ 1) with 2 in Hm.
    assert (HPle : n <= 970 -> 2 ^ n <= 2 ^ 970)
      by (intros; apply Z.pow_le_mono_r; lia).
    assert (HPeq : n = 971 -> 2 ^ n = 2 * 2 ^ 970)
      by (intros ->; vm_compute; reflexivity).
    assert (HPge : 972 <= n -> 4 * 2 ^ 970 <= 2 ^ n).
    { intros. replace (4 * 2 ^ 970) with (2 ^ 972)
        by (vm_compute; reflexivity).
      apply Z.pow_le_mono_r; lia. }
    assert (HL : float_limit = 18014398509481983 * 2 ^ 970)
      by (vm_compute; reflexivity).
    assert (HLpos : 0 < 2 ^ 970) by (vm_compute; reflexivity).
    pose proof (Z.pow_pos_nonneg 2 n ltac:(lia) ltac:(lia)) as HP.
    set (L := 2 ^ 970) in *. clearbody L.
    set (P := 2 ^ n) in *. clearbody P.
    assert (Hq53 : q < 9007199254740992).
    { apply (Z.mul_lt_mono_pos_r P); [exact HP|]. destruct r;
        cbn [Z.b2z] in Hm; lia. }
    assert (Hq52 : 4503599627370496 <= q).
    { assert (4503599627370496 * P < (q + 1) * P)
        by (destruct r; cbn [Z.b2z] in Hm; lia).
      apply (Z.mul_lt_mono_pos_r P) in H; lia. }
    pose proof (round_nearest_even_cases q r s) as (Hm1 & Hm2 & Hm3).
    cbv zeta in Hm1, Hm2, Hm3.
    set (m' := round_nearest_even q _) in *. clearbody m'.
    assert (Hodd : q = 9007199254740991 -> Z.even q = false)
      by (intros ->; reflexivity).
    change (emax - prec) with 971.
    destruct (Z.lt_ge_cases m' 9007199254740992) as [Hlt|Hge].
    + destruct m' as [|mp|mp]; [lia| |lia].
      assert (Hmp : Zpos (digits2_pos mp) = 53).
      { apply digits2_pos_unique; [lia|].
        change (2 ^ (53 - 1)) with 4503599627370496.
        change (2 ^ 53) with 9007199254740992. lia. }
      rewrite (shr_fexp_53 mp n Hmp) by lia. cbn [shr_m].
      destruct (Z.leb_spec n 971) as [Hle|Hgt].
      * left. split; [eexists _, _; reflexivity|].
        destruct (Z.eq_dec n 971) as [E|E].
        -- rewrite (HPeq E) in *.
           destruct (Z.eq_dec q 9007199254740991) as [Eq|Eq].
           ++ destruct r; [specialize (Hm3 eq_refl (Hodd Eq)); lia|].
              cbn [Z.b2z] in Hm. subst q. lia.
           ++ assert (q * L <= 9007199254740990 * L)
                by (apply Z.mul_le_mono_nonneg_r; lia).
              destruct r; cbn [Z.b2z] in Hm; lia.
        -- specialize (HPle ltac:(lia)). lia.
      * right. split; [reflexivity|].
        specialize (HPge ltac:(lia)). lia.
    + assert (Em : m' = 9007199254740992) by lia. subst m'.
      rewrite shr_fexp_54 by lia. cbn [shr_m].
      destruct (Z.leb_spec (n + 1) 971) as [Hle|Hgt].
      * left. split; [eexists _, _; reflexivity|].
        specialize (HPle ltac:(lia)). lia.
      * right. split; [reflexivity|].
        destruct (Z.eq_dec n 971) as [E|E].
        -- rewrite (HPeq E) in *.
           assert (Eq : q = 9007199254740991) by lia. subst q.
           specialize (Hm2 eq_refl). subst r. cbn [Z.b2z] in Hm. lia.
        -- specialize (HPge ltac:(lia)). lia.
  - (* fewer than 53 bits: the mantissa is shifted left, exactly *)
    assert (Hd : Zpos (digits2_pos (Pos.iter xO p k)) = 53)
      by (rewrite digits2_pos_shift; lia).
    unfold binary_round_aux.
    rewrite (shr_fexp_53 _ (Zpos (digits2_pos p) - 53) Hd) by lia.
    cbn [shr_m loc_of_shr_record round_nearest_even].
    rewrite (shr_fexp_53 _ (Zpos (digits2_pos p) - 53) Hd) by lia.
    cbn [shr_m]. change (emax - prec) with 971.
    destruct (Z.leb_spec (Zpos (digits2_pos p) - 53) 971) as [Hle|Hgt];
      [|lia].
    left. split; [eexists _, _; reflexivity|].
    pose proof (Z.pow_le_mono_r 2 (Zpos (digits2_pos p)) 53
                  ltac:(lia) ltac:(lia)) as Hpow.
    change (2 ^ 53) with 9007199254740992 in Hpow.
    destruct Hb as [_ Hb].
    generalize dependent (2 ^ Zpos (digits2_pos p)). intros; lia.
Qed.

Lemma int_to_float_in_range (a : Z) :
  0 <= a -> succeeds (PyNum.int_to_float a) = (a <? float_limit).
Proof.
  intros Ha. unfold PyNum.int_to_float.
  destruct a as [|p|p]; [reflexivity| |lia].
  destruct (normalize_int_outcome p) as [[(m & e & ->) Hlt]|[-> Hge]];
    cbn [succeeds]; symmetry.
  - apply Z.ltb_lt. exact Hlt.
  - apply Z.ltb_ge. exact Hge.
Qed.

Lemma distance_of_count_outcome (s : state) (m : M value) (a : Z)
    (k : float) (mk : positive) (ek : Z) :
  (0 <= a)%Z ->
  Prim2SF k = S754_finite false mk ek ->
  evals s m (spec_distance (VInt a) k) ->
  if (a <? float_limit)%Z
  then exists x, m s = (Ok (VFloat x), s) /\ (0 <=? x)%float = true
  else m s = (Raise OverflowError, s).
Proof.
  intros Ha Hk Hm. rewrite distance_of_count in Hm.
  rewrite <- (int_to_float_in_range a Ha).
  destruct (PyNum.int_to_float a) as [x0|e] eqn:E0;
    cbn [res_bind succeeds] in Hm |- *.
  - eexists. split; [exact Hm|].
    eapply scaled_nonneg; [|exact Hk].
    eapply int_to_float_nonneg; eassumption.
  - rewrite (int_to_float_error a e E0) in Hm. exact Hm.
Qed.

(** X16. For a record of any class whose step count [a] is a
    non-negative int, the outcome of [get_distance()] is decided by the
    size of the count alone. Below [2 ^ 1024 - 2 ^ 970], the first
    integer that rounds past the largest double, the call returns a
    float that is greater than or equal to zero (never a negative
    number, never NaN); from that integer on it raises
    [OverflowError]. Either way the store is unchanged. *)
Theorem distance_is_never_negative `{Platform}
    (s : state) (l : loc) (c : pyclass) (data : list value) (a : Z) :
  length data = length (fields c) ->
  data !! 0%nat = Some (VInt a) ->
  (0 <= a)%Z ->
  record_at s l c data ->
  if (a <? float_limit)%Z
  then exists x,
         call_method (Some l) "get_distance" s = (Ok (VFloat x), s) /\
         (0 <=? x)%float = true
  else call_method (Some l) "get_distance" s = (Raise OverflowError, s).
Proof.
  intros Hn H0 Ha Hl. destruct c.
  - destruct data as [|a0 [|d [|w [|? ?]]]]; try discriminate Hn.
    injection H0 as ->.
    eapply (distance_of_count_outcome s _ a 0.65); [exact Ha | |].
    + vm_compute. reflexivity.
    + exact (base_distance s l (VInt a) d w Hl).
  - destruct data as [|a0 [|d [|w [|? ?]]]]; try discriminate Hn.
    injection H0 as ->.
    eapply (distance_of_count_outcome s _ a 0.65); [exact Ha | |].
    + vm_compute. reflexivity.
    + apply (running_like_distance s l Running [VInt a; d; w]
               (VInt a) d w VNone); [left; split; reflexivity | exact Hl].
  - destruct data as [|a0 [|d [|w [|h [|? ?]]]]]; try discriminate Hn.
    injection H0 as ->.
    eapply (distance_of_count_outcome s _ a 0.65); [exact Ha | |].
    + vm_compute. reflexivity.
    + apply (running_like_distance s l SportsWalking [VInt a; d; w; h]
               (VInt a) d w h); [right; split; reflexivity | exact Hl].
  - destruct data as [|a0 [|d [|w [|lp [|cp [|? ?]]]]]];
      try discriminate Hn.
    injection H0 as ->.
    eapply (distance_of_count_outcome s _ a 1.38); [exact Ha | |].
    + vm_compute. reflexivity.
    + exact (swimming_distance s l (VInt a) d w lp cp Hl).
Qed.

Lemma distance_is_never_negative_witness :
  (exists x,
     @call_method sample_platform (Some 0%nat) "get_distance"
       (one_record Swimming swm_data)
     = (Ok (VFloat x), one_record Swimming swm_data) /\
     (0 <=? x)%float = true) /\
  @call_method sample_platform (Some 0%nat) "get_distance"
    (one_record Running huge_run_data)
  = (Raise OverflowError, one_record Running huge_run_data).
Proof.
  split.
  - apply (@distance_is_never_negative sample_platform
             (one_record Swimming swm_data) 0%nat Swimming swm_data 720);
      [reflexivity | reflexivity | lia | reflexivity].
  - apply (@distance_is_never_negative sample_platform
             (one_record Running huge_run_data) 0%nat Running
             huge_run_data (2 ^ 1024));
      [reflexivity | reflexivity | lia | reflexivity].
Defined.
